(** * gistapi: searching a user's gists with a regular expression

    A shallow embedding of [gistapi/gistapi.py].  The module is a Flask
    application with two routes.  [search] pulls the pages of a user's
    gists from the GitHub API through the generator [gists_for_user],
    fetches every file of every gist line by line and keeps the URLs of the
    gists in which some line is matched by the pattern.

    The network is modelled as a remote that answers requests, depending on
    the exchanges that took place before; the code runs in a state and
    exception monad whose state is the trace of exchanges.  The pydantic
    validators are parameters.  Python's [re] is modelled for a fragment of
    its syntax. *)

From Stdlib Require Import String Ascii List ZArith Bool Lia PeanoNat.
From Equations Require Import Equations.
Import ListNotations.

Local Open Scope string_scope.
Local Open Scope Z_scope.

Set Warnings "-register-all".

(** ** JSON values, as [response.json()] and [request.get_json()] give them

    Python floats are left out; an object keeps the order of its keys, as a
    Python dict does. *)

Inductive JSON : Type :=
| JNull
| JBool (b : bool)
| JInt (n : Z)
| JStr (s : string)
| JArr (items : list JSON)
| JObj (fields : list (string * JSON)).

(** Python's truth value of a decoded JSON value: [None], [False], [0],
    [""], [[]] and [{}] are false. *)
Definition truthy (data : JSON) : bool :=
  match data with
  | JNull => false
  | JBool b => b
  | JInt n => negb (n =? 0)
  | JStr s => negb (String.eqb s "")
  | JArr items => match items with [] => false | _ :: _ => true end
  | JObj fields => match fields with [] => false | _ :: _ => true end
  end.

(** [d.get(key)] on a dict given by its items. *)
Fixpoint dict_get {V : Type} (key : string) (d : list (string * V)) : option V :=
  match d with
  | [] => None
  | (k, v) :: rest => if String.eqb k key then Some v else dict_get key rest
  end.

(** ** Python's [re], for a fragment of its syntax

    The fragment has literal characters, [.], [^], [$], [|], groups, the
    repetitions [*], [+], [?] with their lazy forms, and a backslash before
    a character that is neither a letter nor a digit.  Character classes,
    counted repetitions, letter and digit escapes, [(?...)] extensions and
    possessive repetitions are outside the fragment: [compile] rejects them
    as it rejects ill-formed patterns. *)

Module re.

Inductive regex : Type :=
| Eps
| Chr (c : ascii)
| Any
| Bol
| Eol
| Seq (r1 r2 : regex)
| Alt (r1 r2 : regex)
| Star (r : regex)
| Void.

(** The compiled pattern object: its source text ([regex.pattern]) and its
    program. *)
Record Pattern : Type := { pattern : string; prog : regex }.

Definition newline : ascii := "010"%char.

(** [nullable bol eol r]: [r] matches the empty string at a position that
    is the start of the string when [bol] holds and its end (or just before
    a final newline) when [eol] holds. *)
Fixpoint nullable (bol eol : bool) (r : regex) : bool :=
  match r with
  | Eps => true
  | Chr _ => false
  | Any => false
  | Bol => bol
  | Eol => eol
  | Seq r1 r2 => nullable bol eol r1 && nullable bol eol r2
  | Alt r1 r2 => nullable bol eol r1 || nullable bol eol r2
  | Star _ => true
  | Void => false
  end.

(** What is left of [r] to match after the character [c]. *)
Fixpoint deriv (bol eol : bool) (c : ascii) (r : regex) : regex :=
  match r with
  | Eps => Void
  | Chr c' => if Ascii.eqb c c' then Eps else Void
  | Any => if Ascii.eqb c newline then Void else Eps
  | Bol => Void
  | Eol => Void
  | Seq r1 r2 =>
      if nullable bol eol r1
      then Alt (Seq (deriv bol eol c r1) r2) (deriv bol eol c r2)
      else Seq (deriv bol eol c r1) r2
  | Alt r1 r2 => Alt (deriv bol eol c r1) (deriv bol eol c r2)
  | Star r1 => Seq (deriv bol eol c r1) (Star r1)
  | Void => Void
  end.

(** [$] matches at the end of the string and just before a newline that
    ends it. *)
Definition at_eol (s : string) : bool :=
  match s with
  | EmptyString => true
  | String c EmptyString => Ascii.eqb c newline
  | _ => false
  end.

(** Some prefix of [s] is matched by [r]. *)
Fixpoint match_from (bol : bool) (r : regex) (s : string) : bool :=
  nullable bol (at_eol s) r ||
  match s with
  | EmptyString => false
  | String c s' => match_from false (deriv bol (at_eol s) c r) s'
  end.

Fixpoint drop (n : nat) (s : string) : string :=
  match n, s with
  | O, _ => s
  | S n', String _ s' => drop n' s'
  | S _, EmptyString => EmptyString
  end.

(** [regex.match(line, pos)] finds a match: one that begins at [pos]. *)
Definition match_at (p : Pattern) (line : string) (pos : nat) : bool :=
  (pos <=? String.length line)%nat &&
  match_from (pos =? 0)%nat (prog p) (drop pos line).

(** [regex.match(line)] is not [None]. *)
Definition match_ (p : Pattern) (line : string) : bool := match_at p line 0.

(** [regex.search(line)] is not [None]: a match begins somewhere. *)
Definition search (p : Pattern) (line : string) : bool :=
  existsb (match_at p line) (seq 0 (S (String.length line))).

(** *** Parsing a pattern *)

Inductive kind : Type :=
| KAtom      (* a literal, [.] or a group: may be repeated *)
| KRepeat    (* a greedy repetition: a [?] after it makes it lazy *)
| KLazy      (* a lazy repetition: may not be repeated *)
| KAt.       (* [^] or [$]: nothing to repeat *)

(** A branch under construction: the alternatives closed by [|] so far and
    the items of the current one, the most recent first. *)
Record frame : Type := { alts : list regex; items : list (regex * kind) }.

Record pstate : Type := { outer : list frame; cur : frame; esc : bool }.

Definition seq_of (its : list (regex * kind)) : regex :=
  fold_left (fun acc it => Seq (fst it) acc) its Eps.

Definition close (f : frame) : regex :=
  fold_left (fun acc b => Alt b acc) (alts f) (seq_of (items f)).

Definition push (it : regex * kind) (st : pstate) : pstate :=
  {| outer := outer st;
     cur := {| alts := alts (cur st); items := it :: items (cur st) |};
     esc := false |}.

Definition repeat_last (op : regex -> regex) (st : pstate) : option pstate :=
  match items (cur st) with
  | (r, KAtom) :: rest =>
      Some {| outer := outer st;
              cur := {| alts := alts (cur st); items := (op r, KRepeat) :: rest |};
              esc := false |}
  | _ => None
  end.

Definition question (st : pstate) : option pstate :=
  match items (cur st) with
  | (r, KRepeat) :: rest =>
      Some {| outer := outer st;
              cur := {| alts := alts (cur st); items := (r, KLazy) :: rest |};
              esc := false |}
  | _ => repeat_last (fun r => Alt Eps r) st
  end.

Definition is_alnum (c : ascii) : bool :=
  let n := nat_of_ascii c in
  ((48 <=? n) && (n <=? 57) || (65 <=? n) && (n <=? 90) || (97 <=? n) && (n <=? 122))%nat.

Definition step (st : pstate) (c : ascii) : option pstate :=
  if esc st then
    if is_alnum c then None else Some (push (Chr c, KAtom) st)
  else if Ascii.eqb c "\" then
    Some {| outer := outer st; cur := cur st; esc := true |}
  else if Ascii.eqb c "(" then
    Some {| outer := cur st :: outer st;
            cur := {| alts := []; items := [] |};
            esc := false |}
  else if Ascii.eqb c ")" then
    match outer st with
    | [] => None
    | f :: rest =>
        Some {| outer := rest;
                cur := {| alts := alts f; items := (close (cur st), KAtom) :: items f |};
                esc := false |}
    end
  else if Ascii.eqb c "|" then
    Some {| outer := outer st;
            cur := {| alts := seq_of (items (cur st)) :: alts (cur st); items := [] |};
            esc := false |}
  else if Ascii.eqb c "*" then repeat_last Star st
  else if Ascii.eqb c "+" then repeat_last (fun r => Seq r (Star r)) st
  else if Ascii.eqb c "?" then question st
  else if Ascii.eqb c "." then Some (push (Any, KAtom) st)
  else if Ascii.eqb c "^" then Some (push (Bol, KAt) st)
  else if Ascii.eqb c "$" then Some (push (Eol, KAt) st)
  else if Ascii.eqb c "[" || Ascii.eqb c "{" then None
  else Some (push (Chr c, KAtom) st).

Fixpoint parse (st : pstate) (s : string) : option regex :=
  match s with
  | EmptyString =>
      if esc st then None
      else match outer st with
           | [] => Some (close (cur st))
           | _ :: _ => None
           end
  | String c s' =>
      match step st c with
      | Some st' => parse st' s'
      | None => None
      end
  end.

(** [re.compile(pattern)]; [None] stands for raising [re.error]. *)
Definition compile (source : string) : option Pattern :=
  match parse {| outer := []; cur := {| alts := []; items := [] |}; esc := false |} source with
  | Some r => Some {| pattern := source; prog := r |}
  | None => None
  end.

End re.

(** ** Exceptions

    The three classes the module defines, and those of the libraries that
    can cross it: [re.error], the [JSONDecodeError] of [response.json()] and
    [requests.exceptions.RequestException] (connection failures, exhausted
    retries, a stream that breaks while it is read). *)

Inductive exn : Type :=
| UserNotFound
| MalformedResponse
| UnexpectedStatusCode
| re_error
| JSONDecodeError
| RequestException (detail : string).

Inductive outcome (A : Type) : Type :=
| Ret (a : A)
| Raise (e : exn).
Arguments Ret {A} a.
Arguments Raise {A} e.

(** ** The network *)

(** [session.get(url, params=..., stream=...)]. *)
Record request : Type := Get { url : string; params : list (string * Z); stream : bool }.

(** The lines [response.iter_lines(decode_unicode=True)] produces, pulled
    one at a time: the stream ends, gives a line, or breaks. *)
Inductive Lines : Type :=
| Eof
| Line (l : string) (rest : Lines)
| Broken (detail : string).

(** A response: its status code, what [response.json()] decodes ([None]
    when the body is not JSON) and its lines. *)
Record Response : Type :=
  { status_code : Z; json : option JSON; iter_lines : Lines }.

(** What [session.get] ends with, once the adapter has spent its retries. *)
Inductive reply : Type :=
| Failed (detail : string)
| Answer (r : Response).

Definition exchange : Type := request * reply.

(** The exchanges so far, the most recent first. *)
Definition trace : Type := list exchange.

(** A remote answers a request, knowing the exchanges that came before. *)
Definition Remote : Type := trace -> request -> reply.

(** ** Schemas *)

Record SearchRequestSchema : Type := { username : string; pattern : string }.

Record GistApiFileResponseSchema : Type := { raw_url : string }.

(** [files] keeps the order of the dict. *)
Record GistApiResponseSchema : Type :=
  { html_url : string; files : list (string * GistApiFileResponseSchema) }.

(** [SearchResponseSchema(...).dict()]. *)
Definition SearchResponseSchema (status username pattern : string) (matches : list string)
  : list (string * JSON) :=
  [("status", JStr status); ("username", JStr username); ("pattern", JStr pattern);
   ("matches", JArr (map JStr matches))].

(** What the code takes from outside: the remote, and the two pydantic
    validators.  [parse_obj] stands for [SearchRequestSchema.parse_obj],
    [inl] carrying [err.json()] of the [ValidationError]; [parse_obj_as]
    stands for [pydantic.parse_obj_as(typing.List[GistApiResponseSchema], _)],
    [None] being a [ValidationError]. *)
Record Env : Type :=
  { net : Remote;
    parse_obj : JSON -> string + SearchRequestSchema;
    parse_obj_as : JSON -> option (list GistApiResponseSchema) }.

(** [requests.codes] *)
Module codes.
Definition ok : Z := 200.
Definition forbidden : Z := 403.
Definition not_found : Z := 404.
End codes.

(** ** The monad: a trace of exchanges, and exceptions *)

Definition M (A : Type) : Type := trace -> outcome A * trace.

Definition ret {A : Type} (a : A) : M A := fun tr => (Ret a, tr).

Definition raise {A : Type} (e : exn) : M A := fun tr => (Raise e, tr).

Definition bind {A B : Type} (m : M A) (k : A -> M B) : M B :=
  fun tr =>
    match m tr with
    | (Ret a, tr') => k a tr'
    | (Raise e, tr') => (Raise e, tr')
    end.

(** [try: body  except ...: handler]: [handler e] is [None] when no
    [except] clause takes [e]. *)
Definition try_except {A : Type} (body : M A) (handler : exn -> option (M A)) : M A :=
  fun tr =>
    match body tr with
    | (Ret a, tr') => (Ret a, tr')
    | (Raise e, tr') =>
        match handler e with
        | Some h => h tr'
        | None => (Raise e, tr')
        end
    end.

Declare Scope monad_scope.
Delimit Scope monad_scope with monad.
Notation "x <- m ;; k" := (bind m (fun x => k))
  (at level 100, m at next level, right associativity) : monad_scope.
Local Open Scope monad_scope.

(** ping *)
Definition ping : string := "pong".

(** The retry policy of the session, without its backoff factor (a float);
    the adapter applies it inside [session.get], whose final result is the
    remote's [reply]. *)
Record Session : Type :=
  { total : Z; read : Z; connect : Z; status_forcelist : list Z }.

Definition make_session : Session :=
  {| total := 3; read := 3; connect := 3; status_forcelist := [500; 502; 504] |}.

(** * The code *)

Section Gistapi.

Variable E : Env.

Definition session_get (session : Session) (rq : request) : M Response :=
  fun tr =>
    match net E tr rq with
    | Failed d => (Raise (RequestException d), (rq, Failed d) :: tr)
    | Answer r => (Ret r, (rq, Answer r) :: tr)
    end.

Definition response_json (response : Response) : M JSON :=
  match json response with
  | Some data => ret data
  | None => raise JSONDecodeError
  end.

(** *** gists_for_user

    The generator object: suspended with its [username] and [page], or
    finished. *)
Inductive generator : Type :=
| Suspended (username : string) (page : Z)
| Finished.

Definition gists_url (username : string) : string :=
  "https://api.github.com/users/" ++ username ++ "/gists".

(** Calling the generator function runs nothing. *)
Definition gists_for_user (username : string) : generator := Suspended username 0.

(** [next(gen)]: runs to the next [yield] ([Some] page), to the end of the
    generator ([None], for [StopIteration]) or to an exception. *)
Definition next (gen : generator) : M (option (list GistApiResponseSchema) * generator) :=
  match gen with
  | Finished => ret (None, Finished)
  | Suspended username page =>
      if page <=? 5 then
        let page := page + 1 in
        response <- session_get make_session
                      (Get (gists_url username) [("page", page)] false) ;;
        if status_code response =? codes.not_found then raise UserNotFound
        else if status_code response =? codes.forbidden then raise UnexpectedStatusCode
        else if negb (status_code response =? codes.ok) then raise UnexpectedStatusCode
        else
          data <- response_json response ;;
          if negb (truthy data) then ret (None, Finished)
          else
            match parse_obj_as E data with
            | Some gists => ret (Some gists, Suspended username page)
            | None => raise MalformedResponse
            end
      else ret (None, Finished)
  end.

(** The steps a generator has left, at most. *)
Definition budget (gen : generator) : nat :=
  match gen with
  | Finished => O
  | Suspended _ page => S (Z.to_nat (6 - page))
  end.

Lemma next_budget gen tr gists gen' tr' :
  next gen tr = (Ret (Some gists, gen'), tr') -> (budget gen' < budget gen)%nat.
Proof.
  destruct gen as [u p|]; unfold next; [|discriminate].
  destruct (Z.leb_spec p 5) as [Hle|Hgt]; [|discriminate].
  unfold bind, session_get.
  destruct (net E tr _) as [d|r]; [discriminate|].
  destruct (status_code r =? codes.not_found); [discriminate|].
  destruct (status_code r =? codes.forbidden); [discriminate|].
  destruct (status_code r =? codes.ok); [|discriminate].
  unfold response_json. destruct (json r) as [data|]; [|discriminate].
  unfold ret. destruct (truthy data); [|discriminate].
  destruct (parse_obj_as E data); [|discriminate].
  intros Heq; inversion Heq; subst. unfold budget.
  apply -> Nat.succ_lt_mono. apply Z2Nat.inj_lt; lia.
Qed.

(** A value together with the equation that it is what was computed. *)
Definition inspect {A : Type} (a : A) : {b : A | a = b} := exist _ a eq_refl.

(** [for page in gen: acc = body(page, acc)] *)
Equations? for_in {A : Type} (body : list GistApiResponseSchema -> A -> M A)
  (gen : generator) (acc : A) (tr : trace) : outcome A * trace
  by wf (budget gen) lt :=
for_in body gen acc tr with inspect (next gen tr) := {
  | exist _ (Raise e, tr1) _ => (Raise e, tr1)
  | exist _ (Ret (None, _), tr1) _ => (Ret acc, tr1)
  | exist _ (Ret (Some page, gen'), tr1) Hnext with body page acc tr1 := {
      | (Raise e, tr2) => (Raise e, tr2)
      | (Ret acc', tr2) => for_in body gen' acc' tr2 } }.
Proof. eapply next_budget; eassumption. Qed.

(** *** _fetch_file_lines

    The generator opens the stream when it is first pulled, which the [for]
    of [_gist_matches] does at once, and hands over the lines of the
    response as they come. *)
Definition _fetch_file_lines (url : string) : M Lines :=
  response <- session_get make_session (Get url [] true) ;;
  ret (iter_lines response).

(** *** _gist_matches *)

(** [for line in lines: if regex.match(line): return True]; [Ret false]
    when the lines run out. *)
Fixpoint scan_lines (regex : re.Pattern) (lines : Lines) : outcome bool :=
  match lines with
  | Eof => Ret false
  | Line line rest => if re.match_ regex line then Ret true else scan_lines regex rest
  | Broken d => Raise (RequestException d)
  end.

Definition lift {A : Type} (o : outcome A) : M A := fun tr => (o, tr).

(** The loop over [gist.files.values()]. *)
Fixpoint scan_files (regex : re.Pattern) (gist_files : list GistApiFileResponseSchema)
  : M bool :=
  match gist_files with
  | [] => ret false
  | gist_file :: rest =>
      lines <- _fetch_file_lines (raw_url gist_file) ;;
      found <- lift (scan_lines regex lines) ;;
      if found then ret true else scan_files regex rest
  end.

Definition _gist_matches (gist : GistApiResponseSchema) (regex : re.Pattern) : M bool :=
  scan_files regex (map snd (files gist)).

(** *** search *)

(** [for gist in page: if _gist_matches(gist, regex): matches.append(gist.html_url)] *)
Fixpoint for_gists (regex : re.Pattern) (page : list GistApiResponseSchema)
  (matches : list string) : M (list string) :=
  match page with
  | [] => ret matches
  | gist :: rest =>
      found <- _gist_matches gist regex ;;
      for_gists regex rest (if found then (matches ++ [html_url gist])%list else matches)
  end.

Definition re_compile (source : string) : M re.Pattern :=
  match re.compile source with
  | Some regex => ret regex
  | None => raise re_error
  end.

Definition error_dict (message : string) : list (string * JSON) :=
  [("status", JStr "error"); ("message", JStr message)].

(** The [except] clauses of [search]. *)
Definition search_handlers {A : Type} (user : string)
  (e : exn) : option (M (list (string * JSON) * Z + A)) :=
  match e with
  | UserNotFound => Some (ret (inl (error_dict ("User " ++ user ++ " not found"), 404)))
  | MalformedResponse | UnexpectedStatusCode =>
      Some (ret (inl (error_dict "Internal error", 500)))
  | _ => None
  end.

(** The view function: from the decoded body of the request to the pair of
    a dict and a status code that Flask turns into the response. *)
Definition search (request_json : JSON) : M (list (string * JSON) * Z) :=
  match parse_obj E request_json with
  | inl err => ret (error_dict err, 400)
  | inr post_data =>
      let user := username post_data in
      regex <- re_compile (pattern post_data) ;;
      r <- try_except
             (matches <- for_in (for_gists regex) (gists_for_user user) [] ;;
              ret (inr matches))
             (search_handlers user) ;;
      match r with
      | inl response => ret response
      | inr matches =>
          ret (SearchResponseSchema "success" user (re.pattern regex) matches, 200)
      end
  end.

(** [list(gen)]: the pages a generator yields when it is run to its end. *)
Definition pages_of (gen : generator) : M (list (list GistApiResponseSchema)) :=
  for_in (fun page acc => ret (acc ++ [page])%list) gen [].

(** * Vocabulary of the properties *)

Local Open Scope list_scope.

(** ** What one exchange decides

    Each exchange either lets the search go on, ends the pagination, or
    makes the code raise. *)

Inductive verdict : Type :=
| Continue
| Stop
| Fail (e : exn).

(** The request for page [page + 1] of [username]. *)
Definition page_request (username : string) (page : Z) : request :=
  Get (gists_url username) [("page", page + 1)] false.

Definition file_request (url : string) : request := Get url [] true.

Definition page_verdict (rp : reply) : verdict :=
  match rp with
  | Failed d => Fail (RequestException d)
  | Answer r =>
      if status_code r =? 404 then Fail UserNotFound
      else if status_code r =? 200 then
        match json r with
        | None => Fail JSONDecodeError
        | Some data =>
            if truthy data then
              match parse_obj_as E data with
              | Some _ => Continue
              | None => Fail MalformedResponse
              end
            else Stop
        end
      else Fail UnexpectedStatusCode
  end.

Definition file_verdict (regex : re.Pattern) (rp : reply) : verdict :=
  match rp with
  | Failed d => Fail (RequestException d)
  | Answer r =>
      match scan_lines regex (iter_lines r) with
      | Ret _ => Continue
      | Raise e => Fail e
      end
  end.

Definition verdict_of (regex : re.Pattern) (x : exchange) : verdict :=
  if stream (fst x) then file_verdict regex (snd x) else page_verdict (snd x).

(** All the exchanges of [new] let the search go on. *)
Definition quiet (regex : re.Pattern) (new : trace) : Prop :=
  Forall (fun x => verdict_of regex x = Continue) new.

(** The exchanges a computation added, against its outcome: an exception
    comes from the last exchange, and from no other. *)
Inductive steady {A : Type} (regex : re.Pattern) : trace -> outcome A -> Prop :=
| steady_ret a new :
    quiet regex new -> steady regex new (Ret a)
| steady_raise e x new :
    verdict_of regex x = Fail e -> quiet regex new -> steady regex (x :: new) (Raise e).

(** The same for the whole loop, where the last exchange may also have
    ended the pagination. *)
Inductive shape {A : Type} (regex : re.Pattern) : trace -> outcome A -> Prop :=
| shape_steady new out :
    steady regex new out -> shape regex new out
| shape_stop a x new :
    verdict_of regex x = Stop -> quiet regex new -> shape regex (x :: new) (Ret a).

(** The response for an outcome of the loop of [search]: the [except]
    clauses, and the success response after them. *)
Definition respond (user : string) (regex : re.Pattern) (loop : outcome (list string))
  : outcome (list (string * JSON) * Z) :=
  match loop with
  | Ret matches => Ret (SearchResponseSchema "success" user (re.pattern regex) matches, 200)
  | Raise UserNotFound => Ret (error_dict ("User " ++ user ++ " not found")%string, 404)
  | Raise MalformedResponse | Raise UnexpectedStatusCode =>
      Ret (error_dict "Internal error", 500)
  | Raise e => Raise e
  end.

(** The failure of the retrieval of a file's content: the request fails,
    or the stream breaks before a line is matched. *)
Definition fetch_fails (regex : re.Pattern) (rp : reply) (d : string) : Prop :=
  match rp with
  | Failed d' => d' = d
  | Answer r => scan_lines regex (iter_lines r) = Raise (RequestException d)
  end.

(** The kinds of error the fetcher raises on purpose. *)
Definition classified (e : exn) : Prop :=
  e = UserNotFound \/ e = MalformedResponse \/ e = UnexpectedStatusCode.

(** The pattern does not match [line] from its start. *)
Definition no_match (regex : re.Pattern) (line : string) : Prop :=
  re.match_ regex line = false.

(** The stream of the file at [url] opens and gives a line. *)
Definition yields_line (url : string) : Prop :=
  forall tr, exists r line rest,
    net E tr (file_request url) = Answer r /\ iter_lines r = Line line rest.

(** The stream of the file at [url] opens and ends without a line. *)
Definition yields_nothing (url : string) : Prop :=
  forall tr, exists r, net E tr (file_request url) = Answer r /\ iter_lines r = Eof.

(** The stream of the file at [url] opens and does not break before its
    first line or its end. *)
Definition retrieved (url : string) : Prop :=
  forall tr, exists r,
    net E tr (file_request url) = Answer r /\ forall d, iter_lines r <> Broken d.

(** The pages a generator can still yield, at most. *)
Definition pages_left (gen : generator) : nat :=
  match gen with
  | Finished => O
  | Suspended _ page => Z.to_nat (6 - page)
  end.

(** The requests for pages among the exchanges [new], in the order in
    which they were sent. *)
Definition page_requests (new : trace) : list request :=
  filter (fun rq => negb (stream rq)) (map fst (rev new)).

(** The gists that a page exchange lists: those of a body answered with
    status 200 that is true in Python and that the validator takes. *)
Definition page_gists (x : exchange) : list GistApiResponseSchema :=
  if stream (fst x) then []
  else
    match snd x with
    | Failed _ => []
    | Answer r =>
        if status_code r =? 200 then
          match json r with
          | Some data =>
              if truthy data then
                match parse_obj_as E data with
                | Some gists => gists
                | None => []
                end
              else []
          | None => []
          end
        else []
    end.

(** The gists listed by the exchanges [new], in the order of the pages. *)
Definition listed (new : trace) : list GistApiResponseSchema :=
  flat_map page_gists (rev new).

(** [urls] are the URLs of some of [gists], in the order of [gists]. *)
Inductive picked : list GistApiResponseSchema -> list string -> Prop :=
| picked_nil : picked [] []
| picked_take gist gists urls :
    picked gists urls -> picked (gist :: gists) (html_url gist :: urls)
| picked_skip gist gists urls :
    picked gists urls -> picked (gist :: gists) urls.

(** The request failed, or is a request for a page that was answered with
    a status other than 200. *)
Definition refused (x : exchange) : Prop :=
  match snd x with
  | Failed _ => True
  | Answer r => stream (fst x) = false /\ status_code r <> 200
  end.

(** * Validators and remotes to run the code on *)

Fixpoint all_some {A : Type} (l : list (option A)) : option (list A) :=
  match l with
  | [] => Some []
  | Some a :: rest => option_map (cons a) (all_some rest)
  | None :: _ => None
  end.

(** A validator of the request that takes the objects with a string
    [username] and a string [pattern]. *)
Definition request_of_json (j : JSON) : string + SearchRequestSchema :=
  match j with
  | JObj d =>
      match dict_get "username" d, dict_get "pattern" d with
      | Some (JStr u), Some (JStr p) => inr {| username := u; pattern := p |}
      | _, _ => inl "value_error"
      end
  | _ => inl "value_error"
  end.

Definition file_of_json (kv : string * JSON) : option (string * GistApiFileResponseSchema) :=
  match snd kv with
  | JObj d =>
      match dict_get "raw_url" d with
      | Some (JStr u) => Some (fst kv, {| raw_url := u |})
      | _ => None
      end
  | _ => None
  end.

Definition gist_of_json (j : JSON) : option GistApiResponseSchema :=
  match j with
  | JObj d =>
      match dict_get "html_url" d, dict_get "files" d with
      | Some (JStr u), Some (JObj fs) =>
          option_map (fun l => {| html_url := u; files := l |})
                     (all_some (map file_of_json fs))
      | _, _ => None
      end
  | _ => None
  end.

(** A validator of a page that takes the arrays of objects with a string
    [html_url] and a [files] object whose values have a string [raw_url]. *)
Definition gists_of_json (j : JSON) : option (list GistApiResponseSchema) :=
  match j with
  | JArr l => all_some (map gist_of_json l)
  | _ => None
  end.

Definition env_of (remote : Remote) : Env :=
  {| net := remote; parse_obj := request_of_json; parse_obj_as := gists_of_json |}.

(** The stream that gives the lines of [before], then goes on as [rest]. *)
Fixpoint feed (before : list string) (rest : Lines) : Lines :=
  match before with
  | [] => rest
  | x :: before' => Line x (feed before' rest)
  end.

Definition lines_of (l : list string) : Lines := feed l Eof.

Definition page_of (gists : list JSON) : reply :=
  Answer {| status_code := 200; json := Some (JArr gists); iter_lines := Eof |}.

Definition status_only (code : Z) : reply :=
  Answer {| status_code := code; json := None; iter_lines := Eof |}.

Definition text_of (lines : Lines) : reply :=
  Answer {| status_code := 200; json := None; iter_lines := lines |}.

Definition page_number (rq : request) : Z :=
  match params rq with
  | (_, n) :: _ => n
  | [] => 0
  end.

(** A remote that answers the request for page [n] with the [n]-th reply
    of [pages] (an empty page beyond them) and the request for a file with
    the reply [contents] gives for its URL (a refused connection when it
    gives none). *)
Definition scripted (pages : list reply) (contents : list (string * reply)) : Remote :=
  fun _ rq =>
    if stream rq then
      match dict_get (url rq) contents with
      | Some rp => rp
      | None => Failed "connection refused"
      end
    else nth (Z.to_nat (page_number rq - 1)) pages (page_of []).

Definition gist_json (html raw : string) : JSON :=
  JObj [("html_url", JStr html); ("files", JObj [("a.txt", JObj [("raw_url", JStr raw)])])].

Definition search_json (user pat : string) : JSON :=
  JObj [("username", JStr user); ("pattern", JStr pat)].

(** An account whose every page holds one gist, with one file of one line. *)
Definition endless : Remote := fun _ rq =>
  if stream rq
  then Answer {| status_code := 200; json := None; iter_lines := lines_of ["TODO: fix"] |}
  else Answer {| status_code := 200;
                 json := Some (JArr [gist_json "https://gist.github.com/g" "https://raw/g"]);
                 iter_lines := Eof |}.

Definition alice_todo : JSON := search_json "alice" "TODO".

(** A page answered with 200 and the body [{}]. *)
Definition empty_object_page : Remote :=
  scripted [Answer {| status_code := 200; json := Some (JObj []); iter_lines := Eof |}] [].

(** A page answered with 200 and a body that is not JSON. *)
Definition not_json_page : Remote :=
  scripted [Answer {| status_code := 200; json := None; iter_lines := Eof |}] [].

Definition todo_regex : re.Pattern :=
  {| re.pattern := "TODO";
     re.prog := re.Seq (re.Chr "T") (re.Seq (re.Chr "O")
                  (re.Seq (re.Chr "D") (re.Seq (re.Chr "O") re.Eps))) |}.

(** The user does not exist. *)
Definition ghost : Remote := scripted [status_only 404] [].

(** One gist on the first page, whose file has a matching line; what the
    second page is makes the runs differ. *)
Definition one_gist (second : reply) : Remote :=
  scripted [page_of [gist_json "https://gist.github.com/g" "https://raw/g"]; second]
           [("https://raw/g", text_of (lines_of ["notes"; "TODO: fix"]))].

(** The file of the gist cannot be reached. *)
Definition unreachable_file : Remote :=
  scripted [page_of [gist_json "https://gist.github.com/g" "https://raw/g"]] [].

(** A gist of three files: nothing in the first, a match on the second
    line of the second, whose stream then breaks, and a third that cannot
    be reached. *)
Definition three_files : GistApiResponseSchema :=
  {| html_url := "https://gist.github.com/g";
     files := [("a.txt", {| raw_url := "https://raw/a" |});
               ("b.txt", {| raw_url := "https://raw/b" |});
               ("c.txt", {| raw_url := "https://raw/c" |})] |}.

Definition three_files_remote : Remote :=
  scripted []
    [("https://raw/a", text_of (lines_of ["a TODO"]));
     ("https://raw/b", text_of (feed ["notes"; "TODO: fix"] (Broken "reset")))].

(** A gist whose first file is empty and whose second holds the empty
    line. *)
Definition blank_files : GistApiResponseSchema :=
  {| html_url := "https://gist.github.com/b";
     files := [("a.txt", {| raw_url := "https://raw/a" |});
               ("b.txt", {| raw_url := "https://raw/b" |})] |}.

Definition blank_remote : Remote :=
  scripted []
    [("https://raw/a", text_of Eof); ("https://raw/b", text_of (lines_of [""]))].

(** The first page is answered with 403. *)
Definition rate_limited : Remote := scripted [status_only 403] [].

(** The first page is answered with a JSON object that is no list of gists. *)
Definition message_page : Remote :=
  scripted [Answer {| status_code := 200;
                      json := Some (JObj [("message", JStr "Not a list")]);
                      iter_lines := Eof |}] [].

(** The request for the first page fails. *)
Definition page_timeout : Remote := scripted [Failed "timed out"] [].

(** An account without gists. *)
Definition no_gists : Remote := scripted [] [].

(** The compiled empty pattern. *)
Definition empty_regex : re.Pattern := {| re.pattern := ""; re.prog := re.Eps |}.

(** * Properties *)

(** ** The rules of the [for] loop over the generator *)

Section ForIn.

Context {A : Type} (body : list GistApiResponseSchema -> A -> M A).

Lemma for_in_stop gen acc tr g tr1 :
  next gen tr = (Ret (None, g), tr1) ->
  for_in body gen acc tr = (Ret acc, tr1).
Proof.
  intros Hn. funelim (for_in body gen acc tr); congruence.
Qed.

Lemma for_in_raise gen acc tr e tr1 :
  next gen tr = (Raise e, tr1) ->
  for_in body gen acc tr = (Raise e, tr1).
Proof.
  intros Hn. funelim (for_in body gen acc tr); congruence.
Qed.

Lemma for_in_body_raise gen acc tr page gen' tr1 e tr2 :
  next gen tr = (Ret (Some page, gen'), tr1) ->
  body page acc tr1 = (Raise e, tr2) ->
  for_in body gen acc tr = (Raise e, tr2).
Proof.
  intros Hn Hb. funelim (for_in body gen acc tr); congruence.
Qed.

Lemma for_in_step gen acc tr page gen' tr1 acc' tr2 :
  next gen tr = (Ret (Some page, gen'), tr1) ->
  body page acc tr1 = (Ret acc', tr2) ->
  for_in body gen acc tr = for_in body gen' acc' tr2.
Proof.
  intros Hn Hb. funelim (for_in body gen acc tr); congruence.
Qed.

End ForIn.

Lemma quiet_app regex new1 new2 :
  quiet regex new1 -> quiet regex new2 -> quiet regex (new2 ++ new1).
Proof. intros H1 H2. apply Forall_app. split; assumption. Qed.

Lemma steady_after {A B : Type} regex new1 new2 (a : A) (out : outcome B) :
  steady regex new1 (Ret a) -> steady regex new2 out -> steady regex (new2 ++ new1) out.
Proof.
  intros H1 H2. inversion H1; subst. inversion H2; subst.
  - constructor. now apply quiet_app.
  - cbn. constructor; [assumption|]. now apply quiet_app.
Qed.

Lemma steady_cast {A B : Type} regex new e :
  @steady A regex new (Raise e) -> @steady B regex new (Raise e).
Proof. intros H. inversion H; subst. now constructor. Qed.

Lemma shape_after {A B : Type} regex new1 new2 (a : A) (out : outcome B) :
  steady regex new1 (Ret a) -> shape regex new2 out -> shape regex (new2 ++ new1) out.
Proof.
  intros H1 H2. inversion H2; subst.
  - apply shape_steady. eapply steady_after; eassumption.
  - cbn. apply shape_stop; [assumption|]. inversion H1; subst. now apply quiet_app.
Qed.

(** An exchange on which the code raises is the last one, and its
    exception is the outcome. *)
Lemma shape_fail {A : Type} regex new (out : outcome A) x e :
  shape regex new out -> In x new -> verdict_of regex x = Fail e -> out = Raise e.
Proof.
  intros Hs Hin Hv.
  assert (Hq : forall l, quiet regex l -> In x l -> False).
  { intros l Hl Hx. unfold quiet in Hl. rewrite Forall_forall in Hl.
    apply Hl in Hx. congruence. }
  inversion Hs as [new' out' Hst|a y new' Hy Hq']; subst.
  - inversion Hst as [a new' Hq'|e' y new' Hy Hq']; subst.
    + exfalso. eauto.
    + destruct Hin as [->|Hin]; [congruence|exfalso; eauto].
  - destruct Hin as [->|Hin]; [congruence|exfalso; eauto].
Qed.

(** An exchange that ends the pagination is the last one, and the loop
    returns. *)
Lemma shape_stopped {A : Type} regex new (out : outcome A) x :
  shape regex new out -> In x new -> verdict_of regex x = Stop ->
  exists a rest, out = Ret a /\ new = x :: rest.
Proof.
  intros Hs Hin Hv.
  assert (Hq : forall l, quiet regex l -> In x l -> False).
  { intros l Hl Hx. unfold quiet in Hl. rewrite Forall_forall in Hl.
    apply Hl in Hx. congruence. }
  inversion Hs as [new' out' Hst|a y new' Hy Hq']; subst.
  - inversion Hst as [a new' Hq'|e' y new' Hy Hq']; subst.
    + exfalso. eauto.
    + destruct Hin as [->|Hin]; [congruence|exfalso; eauto].
  - destruct Hin as [->|Hin]; [eauto|exfalso; eauto].
Qed.

(** ** One step of the generator *)

Lemma next_finished tr : next Finished tr = (Ret (None, Finished), tr).
Proof. reflexivity. Qed.

Lemma next_ceiling username page tr :
  5 < page -> next (Suspended username page) tr = (Ret (None, Finished), tr).
Proof.
  intros Hp. unfold next. destruct (Z.leb_spec page 5); [lia|reflexivity].
Qed.

Lemma next_request username page tr :
  page <= 5 ->
  let rq := page_request username page in
  let rp := net E tr rq in
  match page_verdict rp with
  | Continue =>
      exists gists,
        next (Suspended username page) tr =
        (Ret (Some gists, Suspended username (page + 1)), (rq, rp) :: tr)
  | Stop =>
      next (Suspended username page) tr = (Ret (None, Finished), (rq, rp) :: tr)
  | Fail e =>
      next (Suspended username page) tr = (Raise e, (rq, rp) :: tr)
  end.
Proof.
  intros Hp rq rp. unfold next.
  destruct (Z.leb_spec page 5) as [_|Hgt]; [|lia].
  unfold bind, session_get. fold (page_request username page). fold rq. fold rp.
  destruct rp as [d|r]; cbn [page_verdict]; [reflexivity|].
  unfold codes.not_found, codes.forbidden, codes.ok.
  destruct (Z.eqb_spec (status_code r) 404) as [H404|H404]; [reflexivity|].
  destruct (Z.eqb_spec (status_code r) 403) as [H403|H403].
  { destruct (Z.eqb_spec (status_code r) 200); [lia|reflexivity]. }
  destruct (Z.eqb_spec (status_code r) 200) as [H200|H200]; cbn [negb]; [|reflexivity].
  unfold response_json. destruct (json r) as [data|]; [|reflexivity].
  unfold ret. destruct (truthy data); cbn [negb]; [|reflexivity].
  destruct (parse_obj_as E data) as [gists|]; [|reflexivity].
  exists gists. reflexivity.
Qed.

(** ** The matcher, file by file *)

Lemma scan_lines_raise regex lines e :
  scan_lines regex lines = Raise e -> exists d, e = RequestException d.
Proof.
  induction lines as [|l rest IH|d]; cbn [scan_lines].
  - discriminate.
  - destruct (re.match_ regex l); [discriminate|exact IH].
  - intros H; inversion H. eauto.
Qed.

Lemma scan_files_cons regex gist_file rest tr :
  let rq := file_request (raw_url gist_file) in
  let rp := net E tr rq in
  scan_files regex (gist_file :: rest) tr =
  match rp with
  | Failed d => (Raise (RequestException d), (rq, rp) :: tr)
  | Answer r =>
      match scan_lines regex (iter_lines r) with
      | Raise e => (Raise e, (rq, rp) :: tr)
      | Ret true => (Ret true, (rq, rp) :: tr)
      | Ret false => scan_files regex rest ((rq, rp) :: tr)
      end
  end.
Proof.
  intros rq rp. cbn [scan_files]. unfold bind, _fetch_file_lines, bind, session_get.
  fold (file_request (raw_url gist_file)). fold rq. fold rp.
  destruct rp as [d|r]; [reflexivity|].
  unfold ret, lift. destruct (scan_lines regex (iter_lines r)) as [[|]|e]; reflexivity.
Qed.

Lemma scan_files_steady regex gist_files tr :
  exists new,
    snd (scan_files regex gist_files tr) = new ++ tr /\
    steady regex new (fst (scan_files regex gist_files tr)).
Proof.
  revert tr. induction gist_files as [|f rest IH]; intros tr.
  - exists []. split; [reflexivity|]. constructor. constructor.
  - rewrite scan_files_cons.
    set (rq := file_request (raw_url f)). set (rp := net E tr rq).
    assert (Hv : verdict_of regex (rq, rp) = file_verdict regex rp) by reflexivity.
    destruct rp as [d|r] eqn:Hrp.
    + exists [(rq, Failed d)]. split; [reflexivity|].
      constructor; [exact Hv|constructor].
    + cbn [file_verdict] in Hv.
      destruct (scan_lines regex (iter_lines r)) as [[|]|e] eqn:Hs.
      * exists [(rq, Answer r)]. split; [reflexivity|].
        constructor. constructor; [exact Hv|constructor].
      * destruct (IH ((rq, Answer r) :: tr)) as (new & Htr & Hst).
        exists (new ++ [(rq, Answer r)]). split.
        { rewrite Htr, <- app_assoc. reflexivity. }
        eapply steady_after with (a := false); [|exact Hst].
        constructor. constructor; [exact Hv|constructor].
      * exists [(rq, Answer r)]. split; [reflexivity|].
        constructor; [exact Hv|constructor].
Qed.

Lemma for_gists_steady regex page matches tr :
  exists new,
    snd (for_gists regex page matches tr) = new ++ tr /\
    steady regex new (fst (for_gists regex page matches tr)).
Proof.
  revert matches tr. induction page as [|gist rest IH]; intros matches tr.
  - exists []. split; [reflexivity|]. constructor. constructor.
  - cbn [for_gists]. unfold bind, _gist_matches.
    destruct (scan_files_steady regex (map snd (files gist)) tr) as (new1 & Htr1 & Hst1).
    destruct (scan_files regex (map snd (files gist)) tr) as [[found|e] tr1];
      cbn [fst snd] in *; subst tr1.
    + match goal with
      | |- context [for_gists regex rest ?m (new1 ++ tr)] =>
          destruct (IH m (new1 ++ tr)) as (new2 & Htr2 & Hst2)
      end.
      exists (new2 ++ new1). split.
      { rewrite Htr2, app_assoc. reflexivity. }
      eapply steady_after; eassumption.
    + exists new1. split; [reflexivity|]. eapply steady_cast. exact Hst1.
Qed.

(** ** The loop of [search] *)

Lemma for_pages_shape regex gen matches tr :
  exists new,
    snd (for_in (for_gists regex) gen matches tr) = new ++ tr /\
    shape regex new (fst (for_in (for_gists regex) gen matches tr)).
Proof.
  remember (budget gen) as n eqn:Hn.
  revert gen Hn matches tr.
  induction n as [n IH] using lt_wf_ind. intros gen Hn matches tr.
  destruct gen as [u p|].
  2:{ rewrite (for_in_stop _ _ _ _ _ _ (next_finished tr)).
      exists []. split; [reflexivity|]. do 2 constructor. constructor. }
  destruct (Z.leb_spec p 5) as [Hle|Hgt].
  2:{ rewrite (for_in_stop _ _ _ _ _ _ (next_ceiling u p tr Hgt)).
      exists []. split; [reflexivity|]. do 2 constructor. constructor. }
  pose proof (next_request u p tr Hle) as Hnext. cbv zeta in Hnext.
  set (rq := page_request u p) in *. set (rp := net E tr rq) in *.
  assert (Hv : verdict_of regex (rq, rp) = page_verdict rp) by reflexivity.
  destruct (page_verdict rp) as [| |e].
  - destruct Hnext as [gists Hnext].
    destruct (for_gists_steady regex gists matches ((rq, rp) :: tr)) as (new1 & Htr1 & Hst1).
    destruct (for_gists regex gists matches ((rq, rp) :: tr)) as [[matches'|e] tr1] eqn:Hbody;
      cbn [fst snd] in *; subst tr1.
    + rewrite (for_in_step _ _ _ _ _ _ _ _ _ Hnext Hbody).
      edestruct (IH (budget (Suspended u (p + 1)))) as (new2 & Htr2 & Hsh2);
        [|reflexivity|].
      { subst n. eapply next_budget. exact Hnext. }
      exists (new2 ++ new1 ++ [(rq, rp)]). split.
      { rewrite Htr2. rewrite <- !app_assoc. reflexivity. }
      eapply shape_after with (a := matches'); [|exact Hsh2].
      eapply steady_after with (a := tt); [|exact Hst1].
      constructor. constructor; [exact Hv|constructor].
    + rewrite (for_in_body_raise _ _ _ _ _ _ _ _ _ Hnext Hbody).
      exists (new1 ++ [(rq, rp)]). split.
      { cbn. rewrite <- app_assoc. reflexivity. }
      apply shape_steady. eapply steady_after with (a := tt); [|exact Hst1].
      constructor. constructor; [exact Hv|constructor].
  - rewrite (for_in_stop _ _ _ _ _ _ Hnext).
    exists [(rq, rp)]. split; [reflexivity|].
    apply shape_stop; [exact Hv|constructor].
  - rewrite (for_in_raise _ _ _ _ _ _ Hnext).
    exists [(rq, rp)]. split; [reflexivity|].
    apply shape_steady. constructor; [exact Hv|constructor].
Qed.

(** [search], once the request is validated and the pattern compiled, is
    its loop followed by the [except] clauses. *)
Lemma search_unfold request_json post_data regex tr :
  parse_obj E request_json = inr post_data ->
  re.compile (pattern post_data) = Some regex ->
  let user := username post_data in
  let loop := for_in (for_gists regex) (gists_for_user user) [] tr in
  search request_json tr = (respond user regex (fst loop), snd loop).
Proof.
  intros Hp Hc user loop. unfold search. rewrite Hp. unfold re_compile, bind at 1.
  rewrite Hc. unfold ret at 1. fold user.
  unfold bind, try_except, ret. fold loop.
  destruct loop as [[matches|e] tr']; [reflexivity|].
  destruct e; reflexivity.
Qed.

Lemma search_bad_pattern request_json post_data tr :
  parse_obj E request_json = inr post_data ->
  re.compile (pattern post_data) = None ->
  search request_json tr = (Raise re_error, tr).
Proof.
  intros Hp Hc. unfold search. rewrite Hp. unfold re_compile, bind.
  rewrite Hc. reflexivity.
Qed.

(** A search that made an exchange went through its loop, and its trace has
    the shape of the loop's. *)
Lemma search_run request_json post_data out tr' x :
  parse_obj E request_json = inr post_data ->
  search request_json [] = (out, tr') ->
  In x tr' ->
  exists regex loop,
    re.compile (pattern post_data) = Some regex /\
    shape regex tr' loop /\
    out = respond (username post_data) regex loop.
Proof.
  intros Hp Hs Hin.
  destruct (re.compile (pattern post_data)) as [regex|] eqn:Hc.
  - rewrite (search_unfold _ _ _ _ Hp Hc) in Hs. cbv zeta in Hs.
    destruct (for_pages_shape regex (gists_for_user (username post_data)) [] [])
      as (new & Htr & Hsh).
    rewrite app_nil_r in Htr. injection Hs as Hout Htr'.
    exists regex. eexists. split; [reflexivity|]. split; [|symmetry; exact Hout].
    rewrite <- Htr', Htr. exact Hsh.
  - rewrite (search_bad_pattern _ _ _ Hp Hc) in Hs. inversion Hs; subst. destruct Hin.
Qed.

(** C6: when a request for a page of the user's gists is answered with
    status 404, the search returns 404 with the body
    [{"status": "error", "message": "User <username> not found"}]. *)
Theorem search_user_not_found request_json post_data out tr' rq r :
  parse_obj E request_json = inr post_data ->
  search request_json [] = (out, tr') ->
  In (rq, Answer r) tr' ->
  stream rq = false ->
  status_code r = 404 ->
  out = Ret ([("status", JStr "error");
              ("message", JStr ("User " ++ username post_data ++ " not found")%string)],
             404).
Proof.
  intros Hp Hs Hin Hrq H404.
  destruct (search_run _ _ _ _ _ Hp Hs Hin) as (regex & loop & _ & Hsh & ->).
  assert (Hv : verdict_of regex (rq, Answer r) = Fail UserNotFound).
  { unfold verdict_of. cbn [fst snd]. rewrite Hrq. cbn [page_verdict].
    rewrite H404. reflexivity. }
  rewrite (shape_fail _ _ _ _ _ Hsh Hin Hv). reflexivity.
Qed.

(** X2, the part of C7 that the code keeps: a page request answered with a
    status that is neither 200 nor 404 gives the response 500 with
    [{"status": "error", "message": "Internal error"}]. *)
Lemma search_unexpected_status request_json post_data out tr' rq r :
  parse_obj E request_json = inr post_data ->
  search request_json [] = (out, tr') ->
  In (rq, Answer r) tr' ->
  stream rq = false ->
  status_code r <> 404 ->
  status_code r <> 200 ->
  out = Ret ([("status", JStr "error"); ("message", JStr "Internal error")], 500).
Proof.
  intros Hp Hs Hin Hrq H404 H200.
  destruct (search_run _ _ _ _ _ Hp Hs Hin) as (regex & loop & _ & Hsh & ->).
  assert (Hv : verdict_of regex (rq, Answer r) = Fail UnexpectedStatusCode).
  { unfold verdict_of. cbn [fst snd]. rewrite Hrq. cbn [page_verdict].
    destruct (Z.eqb_spec (status_code r) 404); [contradiction|].
    destruct (Z.eqb_spec (status_code r) 200); [contradiction|reflexivity]. }
  rewrite (shape_fail _ _ _ _ _ Hsh Hin Hv). reflexivity.
Qed.

(** X3, the other part that it keeps: a page answered with status 200
    whose body decodes to a value that is true in Python and that the
    validator refuses gives the same response. *)
Lemma search_malformed_page request_json post_data out tr' rq r data :
  parse_obj E request_json = inr post_data ->
  search request_json [] = (out, tr') ->
  In (rq, Answer r) tr' ->
  stream rq = false ->
  status_code r = 200 ->
  json r = Some data ->
  truthy data = true ->
  parse_obj_as E data = None ->
  out = Ret ([("status", JStr "error"); ("message", JStr "Internal error")], 500).
Proof.
  intros Hp Hs Hin Hrq H200 Hj Ht Hv0.
  destruct (search_run _ _ _ _ _ Hp Hs Hin) as (regex & loop & _ & Hsh & ->).
  assert (Hv : verdict_of regex (rq, Answer r) = Fail MalformedResponse).
  { unfold verdict_of. cbn [fst snd]. rewrite Hrq. cbn [page_verdict].
    rewrite H200, Hj, Ht, Hv0. reflexivity. }
  rewrite (shape_fail _ _ _ _ _ Hsh Hin Hv). reflexivity.
Qed.

(** A page answered with status 200 and the body [[]] is the last exchange
    of the search, which then answers 200 with its matches. *)
Lemma search_empty_page request_json post_data out tr' rq r :
  parse_obj E request_json = inr post_data ->
  search request_json [] = (out, tr') ->
  In (rq, Answer r) tr' ->
  stream rq = false ->
  status_code r = 200 ->
  json r = Some (JArr []) ->
  exists matches rest,
    out = Ret (SearchResponseSchema "success" (username post_data) (pattern post_data)
                 matches, 200) /\
    tr' = (rq, Answer r) :: rest.
Proof.
  intros Hp Hs Hin Hrq H200 Hj.
  destruct (search_run _ _ _ _ _ Hp Hs Hin) as (regex & loop & Hc & Hsh & ->).
  assert (Hv : verdict_of regex (rq, Answer r) = Stop).
  { unfold verdict_of. cbn [fst snd]. rewrite Hrq. cbn [page_verdict].
    rewrite H200, Hj. reflexivity. }
  destruct (shape_stopped _ _ _ _ Hsh Hin Hv) as (matches & rest & -> & ->).
  exists matches, rest. split; [|reflexivity]. cbn [respond].
  unfold re.compile in Hc.
  destruct (re.parse _ (pattern post_data)); inversion Hc; subst. reflexivity.
Qed.

(** C5: when the next page of the user's gists is answered with status 200
    and the body [[]], the generator ends there: it yields no page, raises
    nothing and asks for nothing more, and the loop of the search returns
    the matches it had. *)
Theorem empty_page_ends_pagination username page tr r regex matches :
  page <= 5 ->
  net E tr (page_request username page) = Answer r ->
  status_code r = 200 ->
  json r = Some (JArr []) ->
  let tr' := (page_request username page, Answer r) :: tr in
  next (Suspended username page) tr = (Ret (None, Finished), tr') /\
  next Finished tr' = (Ret (None, Finished), tr') /\
  for_in (for_gists regex) (Suspended username page) matches tr = (Ret matches, tr').
Proof.
  intros Hp Hnet H200 Hj tr'.
  assert (Hn : next (Suspended username page) tr = (Ret (None, Finished), tr')).
  { pose proof (next_request username page tr Hp) as H. cbv zeta in H.
    rewrite Hnet in H. cbn [page_verdict] in H. rewrite H200, Hj in H. exact H. }
  split; [exact Hn|]. split; [reflexivity|].
  eapply for_in_stop. exact Hn.
Qed.

(** C9: a failure of the retrieval of a file's content is raised as the
    [RequestException] it is, which none of the [except] clauses of
    [search] takes: the search raises it. *)
Theorem content_failure_propagates request_json post_data regex out tr' rq rp d :
  parse_obj E request_json = inr post_data ->
  re.compile (pattern post_data) = Some regex ->
  search request_json [] = (out, tr') ->
  In (rq, rp) tr' ->
  stream rq = true ->
  fetch_fails regex rp d ->
  out = Raise (RequestException d) /\
  @search_handlers (list string) (username post_data) (RequestException d) = None.
Proof.
  intros Hp Hc Hs Hin Hrq Hf. split; [|reflexivity].
  destruct (search_run _ _ _ _ _ Hp Hs Hin) as (regex' & loop & Hc' & Hsh & ->).
  rewrite Hc in Hc'. inversion Hc'; subst regex'.
  assert (Hv : verdict_of regex (rq, rp) = Fail (RequestException d)).
  { unfold verdict_of. cbn [fst snd]. rewrite Hrq.
    destruct rp as [d'|r]; cbn in Hf |- *; [now subst|now rewrite Hf]. }
  rewrite (shape_fail _ _ _ _ _ Hsh Hin Hv). reflexivity.
Qed.

(** C8: when the loop of the search ends with [UserNotFound],
    [MalformedResponse] or [UnexpectedStatusCode], the response is a dict
    with the keys [status] and [message] only: it has no [matches],
    whatever had been found before. *)
Theorem error_response_has_no_matches request_json post_data regex e tr' :
  parse_obj E request_json = inr post_data ->
  re.compile (pattern post_data) = Some regex ->
  for_in (for_gists regex) (gists_for_user (username post_data)) [] [] = (Raise e, tr') ->
  classified e ->
  exists message code,
    search request_json [] =
    (Ret ([("status", JStr "error"); ("message", JStr message)], code), tr') /\
    dict_get "matches" [("status", JStr "error"); ("message", JStr message)] = None /\
    (code = 404 \/ code = 500).
Proof.
  intros Hp Hc Hloop Hcl.
  rewrite (search_unfold _ _ _ _ Hp Hc). cbv zeta. rewrite Hloop. cbn [fst snd].
  destruct Hcl as [-> | [-> | ->]]; cbn [respond]; do 2 eexists;
    (split; [reflexivity|split; [reflexivity|auto]]).
Qed.

(** Every response of [search] other than the 200 has no [matches]. *)
Lemma search_error_no_matches request_json response code tr' :
  search request_json [] = (Ret (response, code), tr') ->
  code <> 200 ->
  dict_get "matches" response = None.
Proof.
  intros Hs Hcode.
  destruct (parse_obj E request_json) as [err|post_data] eqn:Hp.
  - unfold search in Hs. rewrite Hp in Hs. inversion Hs; subst. reflexivity.
  - destruct (re.compile (pattern post_data)) as [regex|] eqn:Hc.
    + rewrite (search_unfold _ _ _ _ Hp Hc) in Hs. cbv zeta in Hs.
      destruct (for_in _ _ _ _) as [[matches|e] tr1]; cbn [fst snd respond] in Hs.
      * inversion Hs; subst. contradiction.
      * destruct e; inversion Hs; subst; reflexivity.
    + rewrite (search_bad_pattern _ _ _ Hp Hc) in Hs. discriminate.
Qed.

(** ** The matcher *)

Lemma scan_lines_feed regex before rest :
  Forall (no_match regex) before ->
  scan_lines regex (feed before rest) = scan_lines regex rest.
Proof.
  induction 1 as [|l before Hl _ IH]; [reflexivity|].
  cbn [feed scan_lines]. rewrite Hl. exact IH.
Qed.

(** The scan of a stream finds a line exactly when the stream gives, after
    lines without a match, a line that the pattern matches. *)
Lemma scan_lines_true regex lines :
  scan_lines regex lines = Ret true <->
  exists before line rest,
    lines = feed before (Line line rest) /\
    Forall (no_match regex) before /\
    re.match_ regex line = true.
Proof.
  split.
  - induction lines as [|l rest IH|d]; cbn [scan_lines]; [discriminate| |discriminate].
    destruct (re.match_ regex l) eqn:Hl.
    + intros _. exists [], l, rest. repeat split; [constructor|exact Hl].
    + intros H. destruct (IH H) as (before & line & rest' & -> & Hb & Hm).
      exists (l :: before), line, rest'. repeat split; [|exact Hm].
      constructor; assumption.
  - intros (before & line & rest & -> & Hb & Hm).
    rewrite scan_lines_feed by exact Hb. cbn [scan_lines]. rewrite Hm. reflexivity.
Qed.

Lemma scan_files_found regex gist_files tr tr' :
  scan_files regex gist_files tr = (Ret true, tr') ->
  exists gist_file r before line rest tr1,
    In gist_file gist_files /\
    tr' = (file_request (raw_url gist_file), Answer r) :: tr1 /\
    iter_lines r = feed before (Line line rest) /\
    Forall (no_match regex) before /\
    re.match_at regex line 0 = true.
Proof.
  revert tr. induction gist_files as [|f fs IH]; intros tr.
  - discriminate.
  - rewrite scan_files_cons. cbv zeta.
    destruct (net E tr (file_request (raw_url f))) as [d|r]; [discriminate|].
    destruct (scan_lines regex (iter_lines r)) as [[|]|e] eqn:Hs; [| |discriminate].
    + intros H; inversion H; subst.
      apply scan_lines_true in Hs. destruct Hs as (before & line & rest & Hl & Hb & Hm).
      exists f, r, before, line, rest, tr. repeat split; auto. now left.
    + intros H. apply IH in H.
      destruct H as (g & r' & before & line & rest & tr1 & Hin & Htr & Hl & Hb & Hm).
      exists g, r', before, line, rest, tr1. repeat split; auto. now right.
Qed.

(** C3: the matcher returns [True] only on a line that the pattern matches
    from its position zero: its last exchange is the retrieval of one of
    the files of the gist, whose stream gave, after lines without such a
    match, a line with one. *)
Theorem gist_matches_at_start gist regex tr tr' :
  _gist_matches gist regex tr = (Ret true, tr') ->
  exists gist_file r before line rest tr1,
    In gist_file (map snd (files gist)) /\
    tr' = (file_request (raw_url gist_file), Answer r) :: tr1 /\
    iter_lines r = feed before (Line line rest) /\
    Forall (fun l => re.match_at regex l 0 = false) before /\
    re.match_at regex line 0 = true.
Proof.
  unfold _gist_matches. intros H.
  destruct (scan_files_found _ _ _ _ H)
    as (g & r & before & line & rest & tr1 & Hin & Htr & Hl & Hb & Hm).
  exists g, r, before, line, rest, tr1. repeat split; assumption.
Qed.

Lemma scan_files_app regex pre gist_files tr tr1 :
  scan_files regex pre tr = (Ret false, tr1) ->
  scan_files regex (pre ++ gist_files) tr = scan_files regex gist_files tr1.
Proof.
  revert tr. induction pre as [|f pre IH]; intros tr.
  - intros H; inversion H; subst. reflexivity.
  - cbn [app]. rewrite !scan_files_cons. cbv zeta.
    destruct (net E tr (file_request (raw_url f))) as [d|r]; [discriminate|].
    destruct (scan_lines regex (iter_lines r)) as [[|]|e]; [discriminate| |discriminate].
    apply IH.
Qed.

(** The requests of a scan that found nothing: one for each file, in the
    order of the files. *)
Lemma scan_files_requests regex pre tr tr1 :
  scan_files regex pre tr = (Ret false, tr1) ->
  exists new,
    tr1 = new ++ tr /\
    map fst (rev new) = map (fun g => file_request (raw_url g)) pre.
Proof.
  revert tr. induction pre as [|f pre IH]; intros tr.
  - intros H; inversion H; subst. exists []. split; reflexivity.
  - rewrite scan_files_cons. cbv zeta.
    destruct (net E tr (file_request (raw_url f))) as [d|r] eqn:Hnet; [discriminate|].
    destruct (scan_lines regex (iter_lines r)) as [[|]|e]; [discriminate| |discriminate].
    intros H. apply IH in H. destruct H as (new & -> & Hreq).
    exists (new ++ [(file_request (raw_url f), Answer r)]). split.
    + rewrite <- app_assoc. reflexivity.
    + rewrite rev_app_distr. cbn. rewrite Hreq. reflexivity.
Qed.

(** C4: when the files before [gist_file] have been scanned without a
    match and the stream of [gist_file] gives, after lines without a match,
    a line with one, the matcher returns [True] with the retrieval of
    [gist_file] as its last exchange.  Its requests are those of the files
    up to [gist_file], in their order, and no other: the files after it are
    not asked for, and what its stream holds after the matching line, be it
    a break of the stream, plays no part. *)
Theorem gist_matches_short_circuit gist regex pre gist_file post tr tr1 r before line rest :
  map snd (files gist) = pre ++ gist_file :: post ->
  scan_files regex pre tr = (Ret false, tr1) ->
  net E tr1 (file_request (raw_url gist_file)) = Answer r ->
  iter_lines r = feed before (Line line rest) ->
  Forall (fun l => re.match_ regex l = false) before ->
  re.match_ regex line = true ->
  exists new,
    _gist_matches gist regex tr = (Ret true, new ++ tr) /\
    map fst (rev new) = map (fun g => file_request (raw_url g)) (pre ++ [gist_file]).
Proof.
  intros Hfiles Hpre Hnet Hlines Hb Hm.
  destruct (scan_files_requests _ _ _ _ Hpre) as (new1 & -> & Hreq).
  exists ((file_request (raw_url gist_file), Answer r) :: new1). split.
  - unfold _gist_matches. rewrite Hfiles.
    rewrite (scan_files_app _ _ _ _ _ Hpre), scan_files_cons. cbv zeta.
    rewrite Hnet.
    assert (Hs : scan_lines regex (iter_lines r) = Ret true).
    { apply scan_lines_true. exists before, line, rest. auto. }
    rewrite Hs. reflexivity.
  - simpl rev. rewrite !map_app. f_equal. exact Hreq.
Qed.

(** ** The empty pattern *)

Lemma empty_regex_matches line : re.match_ empty_regex line = true.
Proof. destruct line; reflexivity. Qed.

Lemma scan_files_empty_regex_true gist_files tr :
  (forall f, In f gist_files -> retrieved (raw_url f)) ->
  (exists f, In f gist_files /\ yields_line (raw_url f)) ->
  fst (scan_files empty_regex gist_files tr) = Ret true.
Proof.
  revert tr. induction gist_files as [|f fs IH]; intros tr Hall (g & Hin & Hg).
  - destruct Hin.
  - rewrite scan_files_cons. cbv zeta.
    destruct (Hall f (or_introl eq_refl) tr) as (r & Hnet & Hok).
    rewrite Hnet.
    destruct (iter_lines r) as [|l rest|d] eqn:Hl.
    + cbn [scan_lines]. destruct Hin as [->|Hin].
      * destruct (Hg tr) as (r' & l' & rest' & Hnet' & Hl'). congruence.
      * apply IH; [|eauto]. intros f' Hf'. apply Hall. now right.
    + cbn [scan_lines]. rewrite empty_regex_matches. reflexivity.
    + exfalso. eapply Hok. reflexivity.
Qed.

Lemma scan_files_empty_regex_false regex gist_files tr :
  (forall f, In f gist_files -> yields_nothing (raw_url f)) ->
  fst (scan_files regex gist_files tr) = Ret false.
Proof.
  revert tr. induction gist_files as [|f fs IH]; intros tr Hall.
  - reflexivity.
  - rewrite scan_files_cons. cbv zeta.
    destruct (Hall f (or_introl eq_refl) tr) as (r & Hnet & Hl).
    rewrite Hnet, Hl. cbn [scan_lines]. apply IH.
    intros f' Hf'. apply Hall. now right.
Qed.

(** C10: the empty pattern compiles, and matches every line from its
    position zero.  With it the matcher returns [True] for a gist whose
    files are retrieved and one of which gives a line, be it the empty
    line, and [False] for a gist without files or whose files all end
    without a line. *)
Theorem empty_pattern_matches_any_line gist tr :
  re.compile "" = Some empty_regex /\
  (forall line, re.match_at empty_regex line 0 = true) /\
  ((forall f, In f (map snd (files gist)) -> retrieved (raw_url f)) ->
   (exists f, In f (map snd (files gist)) /\ yields_line (raw_url f)) ->
   fst (_gist_matches gist empty_regex tr) = Ret true) /\
  ((forall f, In f (map snd (files gist)) -> yields_nothing (raw_url f)) ->
   fst (_gist_matches gist empty_regex tr) = Ret false).
Proof.
  split; [reflexivity|]. split; [exact empty_regex_matches|]. split.
  - apply scan_files_empty_regex_true.
  - apply scan_files_empty_regex_false.
Qed.

(** ** The number of pages *)

Lemma collect_bound gen acc tr pages tr' :
  for_in (fun page acc => ret (acc ++ [page])) gen acc tr = (Ret pages, tr') ->
  (length pages <= length acc + pages_left gen)%nat.
Proof.
  remember (budget gen) as n eqn:Hn.
  revert gen Hn acc tr.
  induction n as [n IH] using lt_wf_ind. intros gen Hn acc tr.
  destruct gen as [u p|].
  2:{ rewrite (for_in_stop _ _ _ _ _ _ (next_finished tr)).
      intros H; inversion H; subst. lia. }
  destruct (Z.leb_spec p 5) as [Hle|Hgt].
  2:{ rewrite (for_in_stop _ _ _ _ _ _ (next_ceiling u p tr Hgt)).
      intros H; inversion H; subst. lia. }
  pose proof (next_request u p tr Hle) as Hnext. cbv zeta in Hnext.
  destruct (page_verdict _) as [| |e].
  - destruct Hnext as [gists Hnext].
    erewrite for_in_step; [|exact Hnext|reflexivity].
    intros H. eapply IH in H; [| |reflexivity].
    + rewrite length_app in H. cbn [length pages_left] in *.
      assert (Z.to_nat (6 - (p + 1)) < Z.to_nat (6 - p))%nat by (apply Z2Nat.inj_lt; lia).
      lia.
    + subst n. eapply next_budget. exact Hnext.
  - rewrite (for_in_stop _ _ _ _ _ _ Hnext). intros H; inversion H; subst. lia.
  - rewrite (for_in_raise _ _ _ _ _ _ Hnext). discriminate.
Qed.

(** X11: run to its end without an exception, the generator of
    [gists_for_user] has yielded six pages at most, whatever the remote
    answers. *)
Lemma pages_of_bound username tr pages tr' :
  pages_of (gists_for_user username) tr = (Ret pages, tr') -> (length pages <= 6)%nat.
Proof.
  intros H. apply collect_bound in H. exact H.
Qed.

(** ** What [next] did, from its result *)

Lemma next_yield_inv gen tr gists gen' tr' :
  next gen tr = (Ret (Some gists, gen'), tr') ->
  exists username page r data,
    gen = Suspended username page /\ page <= 5 /\
    gen' = Suspended username (page + 1) /\
    tr' = (page_request username page, Answer r) :: tr /\
    status_code r = 200 /\ json r = Some data /\ truthy data = true /\
    parse_obj_as E data = Some gists.
Proof.
  destruct gen as [u p|]; unfold next; [|discriminate].
  destruct (Z.leb_spec p 5) as [Hle|Hgt]; [|discriminate].
  unfold bind, session_get. fold (page_request u p).
  destruct (net E tr _) as [d|r]; [discriminate|].
  unfold codes.not_found, codes.forbidden, codes.ok.
  destruct (Z.eqb_spec (status_code r) 404); [discriminate|].
  destruct (Z.eqb_spec (status_code r) 403); [discriminate|].
  destruct (Z.eqb_spec (status_code r) 200) as [H200|]; [|discriminate].
  unfold response_json. destruct (json r) as [data|] eqn:Hj; [|discriminate].
  unfold ret. destruct (truthy data) eqn:Ht; [|discriminate].
  destruct (parse_obj_as E data) as [gists0|] eqn:Hv; [|discriminate].
  intros Heq; inversion Heq; subst.
  exists u, p, r, data. repeat split; assumption.
Qed.

Lemma next_end_inv gen tr g tr' :
  next gen tr = (Ret (None, g), tr') ->
  g = Finished /\
  (tr' = tr \/
   exists username page r data,
     gen = Suspended username page /\ page <= 5 /\
     tr' = (page_request username page, Answer r) :: tr /\
     status_code r = 200 /\ json r = Some data /\ truthy data = false).
Proof.
  destruct gen as [u p|]; unfold next.
  2:{ intros Heq; inversion Heq; subst. auto. }
  destruct (Z.leb_spec p 5) as [Hle|Hgt].
  2:{ intros Heq; inversion Heq; subst. auto. }
  unfold bind, session_get. fold (page_request u p).
  destruct (net E tr _) as [d|r]; [discriminate|].
  unfold codes.not_found, codes.forbidden, codes.ok.
  destruct (Z.eqb_spec (status_code r) 404); [discriminate|].
  destruct (Z.eqb_spec (status_code r) 403); [discriminate|].
  destruct (Z.eqb_spec (status_code r) 200) as [H200|]; [|discriminate].
  unfold response_json. destruct (json r) as [data|] eqn:Hj; [|discriminate].
  unfold ret. destruct (truthy data) eqn:Ht.
  - destruct (parse_obj_as E data); discriminate.
  - intros Heq; inversion Heq; subst. split; [reflexivity|]. right.
    exists u, p, r, data. repeat split; assumption.
Qed.

Lemma next_raise_inv gen tr e tr' :
  next gen tr = (Raise e, tr') ->
  exists username page,
    gen = Suspended username page /\ page <= 5 /\
    tr' = (page_request username page, net E tr (page_request username page)) :: tr.
Proof.
  destruct gen as [u p|]; [|discriminate].
  intros Heq. destruct (Z.leb_spec p 5) as [Hle|Hgt].
  - exists u, p. repeat split; [assumption|].
    pose proof (next_request u p tr Hle) as H. cbv zeta in H.
    destruct (page_verdict _); [destruct H as [gists H]| |]; congruence.
  - rewrite (next_ceiling u p tr Hgt) in Heq. discriminate.
Qed.

(** ** Induction along the loop *)

Lemma for_in_induction {A : Type} (body : list GistApiResponseSchema -> A -> M A)
  (P : generator -> A -> trace -> outcome A * trace -> Prop) :
  (forall gen acc tr g tr1,
      next gen tr = (Ret (None, g), tr1) -> P gen acc tr (Ret acc, tr1)) ->
  (forall gen acc tr e tr1,
      next gen tr = (Raise e, tr1) -> P gen acc tr (Raise e, tr1)) ->
  (forall gen acc tr page gen' tr1 e tr2,
      next gen tr = (Ret (Some page, gen'), tr1) ->
      body page acc tr1 = (Raise e, tr2) -> P gen acc tr (Raise e, tr2)) ->
  (forall gen acc tr page gen' tr1 acc' tr2,
      next gen tr = (Ret (Some page, gen'), tr1) ->
      body page acc tr1 = (Ret acc', tr2) ->
      P gen' acc' tr2 (for_in body gen' acc' tr2) ->
      P gen acc tr (for_in body gen' acc' tr2)) ->
  forall gen acc tr, P gen acc tr (for_in body gen acc tr).
Proof.
  intros Hstop Hraise Hbody Hstep gen.
  remember (budget gen) as n eqn:Hn. revert gen Hn.
  induction n as [n IH] using lt_wf_ind. intros gen Hn acc tr.
  destruct (next gen tr) as [[[[page|] gen']|e] tr1] eqn:Hnext.
  - destruct (body page acc tr1) as [[acc'|e] tr2] eqn:Hb.
    + rewrite (for_in_step _ _ _ _ _ _ _ _ _ Hnext Hb).
      eapply Hstep; [exact Hnext|exact Hb|].
      eapply IH; [|reflexivity]. subst n. eapply next_budget. exact Hnext.
    + rewrite (for_in_body_raise _ _ _ _ _ _ _ _ _ Hnext Hb). eapply Hbody; eassumption.
  - rewrite (for_in_stop _ _ _ _ _ _ Hnext). eapply Hstop. exact Hnext.
  - rewrite (for_in_raise _ _ _ _ _ _ Hnext). eapply Hraise. exact Hnext.
Qed.

(** ** The requests of the matcher *)

Lemma scan_lines_false regex lines :
  scan_lines regex lines = Ret false <->
  exists ls, lines = lines_of ls /\ Forall (no_match regex) ls.
Proof.
  split.
  - induction lines as [|l rest IH|d]; cbn [scan_lines].
    + intros _. exists []. split; [reflexivity|constructor].
    + destruct (re.match_ regex l) eqn:Hl; [discriminate|].
      intros H. destruct (IH H) as (ls & -> & Hls).
      exists (l :: ls). split; [reflexivity|]. constructor; assumption.
    + discriminate.
  - intros (ls & -> & Hls). unfold lines_of. rewrite scan_lines_feed by exact Hls.
    reflexivity.
Qed.

Lemma scan_files_prefix regex gist_files tr :
  exists k new,
    snd (scan_files regex gist_files tr) = new ++ tr /\
    map fst (rev new) = map (fun g => file_request (raw_url g)) (firstn k gist_files).
Proof.
  revert tr. induction gist_files as [|f fs IH]; intros tr.
  - exists O, []. split; reflexivity.
  - rewrite scan_files_cons. cbv zeta.
    set (x := (file_request (raw_url f), net E tr (file_request (raw_url f)))).
    assert (Hone : exists k new,
               x :: tr = new ++ tr /\
               map fst (rev new) =
               map (fun g => file_request (raw_url g)) (firstn k (f :: fs))).
    { exists 1%nat, [x]. split; reflexivity. }
    destruct (net E tr (file_request (raw_url f))) as [d|r]; [exact Hone|].
    destruct (scan_lines regex (iter_lines r)) as [[|]|e]; [exact Hone| |exact Hone].
    destruct (IH (x :: tr)) as (k & new & Htr & Hreq).
    exists (S k), (new ++ [x]). split.
    + rewrite Htr, <- app_assoc. reflexivity.
    + rewrite rev_app_distr. cbn [rev app map firstn]. f_equal. exact Hreq.
Qed.

(** X8: whatever its outcome, the matcher sends one request for each file
    of a first part of [gist.files], in the order of the files, each for
    the [raw_url] of the file, streamed and without parameters, and no
    other request. *)
Theorem gist_matches_requests gist regex tr :
  exists k new,
    snd (_gist_matches gist regex tr) = new ++ tr /\
    map fst (rev new) =
    map (fun g => Get (raw_url g) [] true) (firstn k (map snd (files gist))).
Proof. apply scan_files_prefix. Qed.

Lemma scan_files_false_all regex gist_files tr tr' :
  scan_files regex gist_files tr = (Ret false, tr') ->
  exists new,
    tr' = new ++ tr /\
    map fst (rev new) = map (fun g => file_request (raw_url g)) gist_files /\
    Forall (fun x => exists r ls,
                snd x = Answer r /\ iter_lines r = lines_of ls /\
                Forall (fun l => re.match_ regex l = false) ls) new.
Proof.
  revert tr. induction gist_files as [|f fs IH]; intros tr.
  - intros H; inversion H; subst. exists []. repeat split. constructor.
  - rewrite scan_files_cons. cbv zeta.
    destruct (net E tr (file_request (raw_url f))) as [d|r] eqn:Hnet; [discriminate|].
    destruct (scan_lines regex (iter_lines r)) as [[|]|e] eqn:Hs;
      [discriminate| |discriminate].
    intros H. apply IH in H. destruct H as (new & -> & Hreq & Hall).
    exists (new ++ [(file_request (raw_url f), Answer r)]). split; [|split].
    + rewrite <- app_assoc. reflexivity.
    + rewrite rev_app_distr. cbn [rev app map]. f_equal. exact Hreq.
    + apply Forall_app. split; [exact Hall|]. constructor; [|constructor].
      apply scan_lines_false in Hs. destruct Hs as (ls & Hl & Hls).
      exists r, ls. repeat split; assumption.
Qed.

(** X13: when the matcher returns [False] it has asked for every file of
    the gist, once and in order, every stream has come to its end, and no
    line of any of them is matched by the pattern from its start. *)
Theorem gist_no_match_scans_everything gist regex tr tr' :
  _gist_matches gist regex tr = (Ret false, tr') ->
  exists new,
    tr' = new ++ tr /\
    map fst (rev new) = map (fun g => Get (raw_url g) [] true) (map snd (files gist)) /\
    Forall (fun x => exists r ls,
                snd x = Answer r /\ iter_lines r = lines_of ls /\
                Forall (fun l => re.match_at regex l 0 = false) ls) new.
Proof. apply scan_files_false_all. Qed.

(** ** The responses of [search] *)

Lemma compile_pattern source regex :
  re.compile source = Some regex -> re.pattern regex = source.
Proof.
  unfold re.compile. destruct (re.parse _ source); intros H; inversion H. reflexivity.
Qed.

(** X1: a response of [search] is one of four.  It is 200 with the status
    [success], the username and the pattern of the request as they were
    sent, and a list of matches; or 400 with the detail of the validator,
    and then nothing was sent; or 404 with the message for the user of the
    request; or 500 with the message [Internal error]. *)
Theorem search_response_kinds request_json response code tr' :
  search request_json [] = (Ret (response, code), tr') ->
  (code = 200 /\
   exists post_data matches,
     parse_obj E request_json = inr post_data /\
     response = [("status", JStr "success"); ("username", JStr (username post_data));
                 ("pattern", JStr (pattern post_data));
                 ("matches", JArr (map JStr matches))]) \/
  (code = 400 /\ tr' = [] /\
   exists err,
     parse_obj E request_json = inl err /\
     response = [("status", JStr "error"); ("message", JStr err)]) \/
  (code = 404 /\
   exists post_data,
     parse_obj E request_json = inr post_data /\
     response = [("status", JStr "error");
                 ("message", JStr ("User " ++ username post_data ++ " not found")%string)]) \/
  (code = 500 /\
   response = [("status", JStr "error"); ("message", JStr "Internal error")]).
Proof.
  intros Hs.
  destruct (parse_obj E request_json) as [err|post_data] eqn:Hp.
  - unfold search in Hs. rewrite Hp in Hs. inversion Hs; subst.
    right. left. repeat split. exists err. split; reflexivity.
  - destruct (re.compile (pattern post_data)) as [regex|] eqn:Hc.
    + rewrite (search_unfold _ _ _ _ Hp Hc) in Hs. cbv zeta in Hs.
      destruct (for_in _ _ _ _) as [[matches|e] tr1]; cbn [fst snd respond] in Hs.
      * inversion Hs; subst. left. split; [reflexivity|].
        exists post_data, matches. split; [reflexivity|].
        unfold SearchResponseSchema. rewrite (compile_pattern _ _ Hc). reflexivity.
      * destruct e; inversion Hs; subst.
        -- right. right. left. split; [reflexivity|]. exists post_data. split; reflexivity.
        -- right. right. right. split; reflexivity.
        -- right. right. right. split; reflexivity.
    + rewrite (search_bad_pattern _ _ _ Hp Hc) in Hs. discriminate.
Qed.

(** X4: a page answered with status 200 and a body that is false in Python
    ([[]], but also [{}], [null], [0], [""] and [false]) is the last
    exchange of the search, which answers 200. *)
Theorem search_falsy_page_ends request_json post_data out tr' rq r data :
  parse_obj E request_json = inr post_data ->
  search request_json [] = (out, tr') ->
  In (rq, Answer r) tr' ->
  stream rq = false ->
  status_code r = 200 ->
  json r = Some data ->
  truthy data = false ->
  exists matches rest,
    out = Ret (SearchResponseSchema "success" (username post_data) (pattern post_data)
                 matches, 200) /\
    tr' = (rq, Answer r) :: rest.
Proof.
  intros Hp Hs Hin Hrq H200 Hj Ht.
  destruct (search_run _ _ _ _ _ Hp Hs Hin) as (regex & loop & Hc & Hsh & ->).
  assert (Hv : verdict_of regex (rq, Answer r) = Stop).
  { unfold verdict_of. cbn [fst snd]. rewrite Hrq. cbn [page_verdict].
    rewrite H200, Hj, Ht. reflexivity. }
  destruct (shape_stopped _ _ _ _ Hsh Hin Hv) as (matches & rest & -> & ->).
  exists matches, rest. split; [|reflexivity]. cbn [respond].
  rewrite (compile_pattern _ _ Hc). reflexivity.
Qed.

(** X5: a page answered with status 200 and a body that is not JSON makes
    the search raise the [JSONDecodeError] of [response.json()]: no
    [except] clause takes it. *)
Theorem search_undecodable_page_raises request_json post_data out tr' rq r :
  parse_obj E request_json = inr post_data ->
  search request_json [] = (out, tr') ->
  In (rq, Answer r) tr' ->
  stream rq = false ->
  status_code r = 200 ->
  json r = None ->
  out = Raise JSONDecodeError.
Proof.
  intros Hp Hs Hin Hrq H200 Hj.
  destruct (search_run _ _ _ _ _ Hp Hs Hin) as (regex & loop & _ & Hsh & ->).
  assert (Hv : verdict_of regex (rq, Answer r) = Fail JSONDecodeError).
  { unfold verdict_of. cbn [fst snd]. rewrite Hrq. cbn [page_verdict].
    rewrite H200, Hj. reflexivity. }
  rewrite (shape_fail _ _ _ _ _ Hsh Hin Hv). reflexivity.
Qed.

(** X6: a request for a page that fails (no connection, retries spent)
    makes the search raise the [RequestException]: it is not turned into
    one of the errors of the module, and there is no response. *)
Theorem search_page_request_failure request_json post_data out tr' rq d :
  parse_obj E request_json = inr post_data ->
  search request_json [] = (out, tr') ->
  In (rq, Failed d) tr' ->
  stream rq = false ->
  out = Raise (RequestException d).
Proof.
  intros Hp Hs Hin Hrq.
  destruct (search_run _ _ _ _ _ Hp Hs Hin) as (regex & loop & _ & Hsh & ->).
  assert (Hv : verdict_of regex (rq, Failed d) = Fail (RequestException d)).
  { unfold verdict_of. cbn [fst snd]. rewrite Hrq. reflexivity. }
  rewrite (shape_fail _ _ _ _ _ Hsh Hin Hv). reflexivity.
Qed.

Lemma shape_last {A : Type} regex new (out : outcome A) x :
  shape regex new out -> In x new -> verdict_of regex x <> Continue ->
  exists rest, new = x :: rest.
Proof.
  intros Hs Hin Hv.
  assert (Hq : forall l, quiet regex l -> In x l -> False).
  { intros l Hl Hx. unfold quiet in Hl. rewrite Forall_forall in Hl.
    apply Hl in Hx. contradiction. }
  inversion Hs as [new' out' Hst|a y new' Hy Hq']; subst.
  - inversion Hst as [a new' Hq'|e' y new' Hy Hq']; subst.
    + exfalso. eauto.
    + destruct Hin as [->|Hin]; [eauto|exfalso; eauto].
  - destruct Hin as [->|Hin]; [eauto|exfalso; eauto].
Qed.

(** X7: the search sends nothing after a request that failed, nor after a
    request for a page that was answered with a status other than 200: such
    an exchange is the last of the trace. *)
Theorem refused_exchange_is_last request_json post_data out tr' x :
  parse_obj E request_json = inr post_data ->
  search request_json [] = (out, tr') ->
  In x tr' ->
  refused x ->
  exists rest, tr' = x :: rest.
Proof.
  intros Hp Hs Hin Hx.
  destruct (search_run _ _ _ _ _ Hp Hs Hin) as (regex & loop & _ & Hsh & _).
  apply (shape_last _ _ _ _ Hsh Hin).
  destruct x as [rq rp]. unfold refused in Hx. unfold verdict_of. cbn [fst snd] in *.
  destruct rp as [d|r].
  - destruct (stream rq); cbn; discriminate.
  - destruct Hx as [Hrq H200]. rewrite Hrq. cbn [page_verdict].
    destruct (status_code r =? 404); [discriminate|].
    destruct (Z.eqb_spec (status_code r) 200); [contradiction|discriminate].
Qed.

(** X12: when the first page of the user's gists is answered with status
    200 and a body that is false in Python, the search sends that one
    request and answers 200 with an empty list of matches. *)
Theorem search_no_gists request_json post_data regex r data :
  parse_obj E request_json = inr post_data ->
  re.compile (pattern post_data) = Some regex ->
  net E [] (page_request (username post_data) 0) = Answer r ->
  status_code r = 200 ->
  json r = Some data ->
  truthy data = false ->
  search request_json [] =
  (Ret ([("status", JStr "success"); ("username", JStr (username post_data));
         ("pattern", JStr (pattern post_data)); ("matches", JArr [])], 200),
   [(Get (gists_url (username post_data)) [("page", 1)] false, Answer r)]).
Proof.
  intros Hp Hc Hnet H200 Hj Ht.
  rewrite (search_unfold _ _ _ _ Hp Hc). cbv zeta.
  pose proof (next_request (username post_data) 0 [] ltac:(lia)) as Hn. cbv zeta in Hn.
  rewrite Hnet in Hn. cbn [page_verdict] in Hn. rewrite H200, Hj, Ht in Hn.
  erewrite for_in_stop by exact Hn. cbn [fst snd respond].
  rewrite (compile_pattern _ _ Hc). reflexivity.
Qed.

(** ** The order of the requests and of the matches *)

Definition streamed (x : exchange) : Prop := stream (fst x) = true.

Lemma scan_files_streams regex gist_files tr :
  exists new,
    snd (scan_files regex gist_files tr) = new ++ tr /\ Forall streamed new.
Proof.
  revert tr. induction gist_files as [|f fs IH]; intros tr.
  - exists []. split; [reflexivity|constructor].
  - rewrite scan_files_cons. cbv zeta.
    set (x := (file_request (raw_url f), net E tr (file_request (raw_url f)))).
    assert (Hone : exists new, x :: tr = new ++ tr /\ Forall streamed new).
    { exists [x]. split; [reflexivity|]. constructor; [reflexivity|constructor]. }
    destruct (net E tr (file_request (raw_url f))) as [d|r]; [exact Hone|].
    destruct (scan_lines regex (iter_lines r)) as [[|]|e]; [exact Hone| |exact Hone].
    destruct (IH (x :: tr)) as (new & Htr & Hall).
    exists (new ++ [x]). split.
    + rewrite Htr, <- app_assoc. reflexivity.
    + apply Forall_app. split; [exact Hall|]. constructor; [reflexivity|constructor].
Qed.

Lemma for_gists_streams regex page matches tr :
  exists new,
    snd (for_gists regex page matches tr) = new ++ tr /\ Forall streamed new.
Proof.
  revert matches tr. induction page as [|gist rest IH]; intros matches tr.
  - exists []. split; [reflexivity|constructor].
  - cbn [for_gists]. unfold bind, _gist_matches.
    destruct (scan_files_streams regex (map snd (files gist)) tr) as (new1 & Htr1 & Hall1).
    destruct (scan_files regex (map snd (files gist)) tr) as [[found|e] tr1];
      cbn [fst snd] in *; subst tr1.
    + match goal with
      | |- context [for_gists regex rest ?m (new1 ++ tr)] =>
          destruct (IH m (new1 ++ tr)) as (new2 & Htr2 & Hall2)
      end.
      exists (new2 ++ new1). split.
      { rewrite Htr2, app_assoc. reflexivity. }
      apply Forall_app. split; assumption.
    + exists new1. split; [reflexivity|exact Hall1].
Qed.

Lemma page_requests_app new1 new2 :
  page_requests (new2 ++ new1) = page_requests new1 ++ page_requests new2.
Proof.
  unfold page_requests. rewrite rev_app_distr, map_app, filter_app. reflexivity.
Qed.

Lemma listed_app new1 new2 : listed (new2 ++ new1) = listed new1 ++ listed new2.
Proof.
  unfold listed. rewrite rev_app_distr, flat_map_app. reflexivity.
Qed.

Lemma streams_page_requests new : Forall streamed new -> page_requests new = [].
Proof.
  induction 1 as [|x new Hx _ IH]; [reflexivity|].
  change (x :: new) with ([x] ++ new). rewrite page_requests_app, IH.
  unfold page_requests. cbn. unfold streamed in Hx. rewrite Hx. reflexivity.
Qed.

Lemma streams_listed new : Forall streamed new -> listed new = [].
Proof.
  induction 1 as [|x new Hx _ IH]; [reflexivity|].
  change (x :: new) with ([x] ++ new). rewrite listed_app, IH.
  unfold listed, page_gists. cbn. unfold streamed in Hx. rewrite Hx. reflexivity.
Qed.

Lemma pages_from_succ username page k :
  page_request username page ::
  map (fun i => page_request username (page + 1 + Z.of_nat i)) (seq 0 k) =
  map (fun i => page_request username (page + Z.of_nat i)) (seq 0 (S k)).
Proof.
  cbn [seq map]. rewrite Z.add_0_r. f_equal.
  rewrite <- seq_shift, map_map. apply map_ext. intros i. f_equal. lia.
Qed.

Lemma for_pages_requests regex gen matches tr :
  exists k new,
    snd (for_in (for_gists regex) gen matches tr) = new ++ tr /\
    (k <= pages_left gen)%nat /\
    page_requests new =
    match gen with
    | Suspended username page =>
        map (fun i => page_request username (page + Z.of_nat i)) (seq 0 k)
    | Finished => []
    end.
Proof.
  pattern gen, matches, tr, (for_in (for_gists regex) gen matches tr).
  apply for_in_induction; clear gen matches tr.
  - intros gen acc tr g tr1 Hn. apply next_end_inv in Hn.
    destruct Hn as [_ [->|(u & p & r & data & -> & Hp & -> & _)]].
    + exists O, []. repeat split; [lia|]. destruct gen; reflexivity.
    + exists 1%nat, [(page_request u p, Answer r)]. repeat split.
      * cbn [pages_left]. lia.
      * cbn. rewrite Z.add_0_r. reflexivity.
  - intros gen acc tr e tr1 Hn. apply next_raise_inv in Hn.
    destruct Hn as (u & p & -> & Hp & ->).
    exists 1%nat. eexists [_]. repeat split.
    + cbn [pages_left]. lia.
    + cbn. rewrite Z.add_0_r. reflexivity.
  - intros gen acc tr page gen' tr1 e tr2 Hn Hb. apply next_yield_inv in Hn.
    destruct Hn as (u & p & r & data & -> & Hp & -> & -> & _).
    destruct (for_gists_streams regex page acc ((page_request u p, Answer r) :: tr))
      as (new1 & Htr1 & Hall1).
    rewrite Hb in Htr1. cbn [snd] in Htr1. subst tr2.
    exists 1%nat, (new1 ++ [(page_request u p, Answer r)]). repeat split.
    + cbn [snd]. rewrite <- app_assoc. reflexivity.
    + cbn [pages_left]. lia.
    + rewrite page_requests_app, (streams_page_requests _ Hall1), app_nil_r.
      cbn. rewrite Z.add_0_r. reflexivity.
  - intros gen acc tr page gen' tr1 acc' tr2 Hn Hb (k & new2 & Htr2 & Hk & Hreq).
    apply next_yield_inv in Hn.
    destruct Hn as (u & p & r & data & -> & Hp & -> & -> & _).
    destruct (for_gists_streams regex page acc ((page_request u p, Answer r) :: tr))
      as (new1 & Htr1 & Hall1).
    rewrite Hb in Htr1. cbn [snd] in Htr1. subst tr2.
    exists (S k), (new2 ++ new1 ++ [(page_request u p, Answer r)]). repeat split.
    + rewrite Htr2, <- !app_assoc. reflexivity.
    + cbn [pages_left] in *. lia.
    + rewrite !page_requests_app, (streams_page_requests _ Hall1), Hreq.
      cbn [app]. rewrite <- pages_from_succ. reflexivity.
Qed.

(** X9: the requests for pages that a search sends are those for the pages
    1, 2, ..., k of the user of the request, in this order and each once,
    with k at most 6. *)
Theorem page_requests_in_order request_json post_data out tr' :
  parse_obj E request_json = inr post_data ->
  search request_json [] = (out, tr') ->
  exists k,
    (k <= 6)%nat /\
    page_requests tr' =
    map (fun n => Get (gists_url (username post_data)) [("page", Z.of_nat n)] false)
        (seq 1 k).
Proof.
  intros Hp Hs.
  destruct (re.compile (pattern post_data)) as [regex|] eqn:Hc.
  - rewrite (search_unfold _ _ _ _ Hp Hc) in Hs. cbv zeta in Hs.
    destruct (for_pages_requests regex (gists_for_user (username post_data)) [] [])
      as (k & new & Htr & Hk & Hreq).
    rewrite app_nil_r in Htr. injection Hs as _ Htr'. rewrite Htr in Htr'. subst tr'.
    exists k. split; [exact Hk|]. rewrite Hreq. unfold gists_for_user.
    rewrite <- seq_shift, map_map. apply map_ext. intros i.
    unfold page_request. do 3 f_equal. lia.
  - rewrite (search_bad_pattern _ _ _ Hp Hc) in Hs. inversion Hs; subst.
    exists O. split; [lia|reflexivity].
Qed.

Lemma picked_app gists1 urls1 gists2 urls2 :
  picked gists1 urls1 -> picked gists2 urls2 -> picked (gists1 ++ gists2) (urls1 ++ urls2).
Proof.
  intros H1 H2. induction H1; cbn; [assumption|now constructor|now constructor].
Qed.

Lemma for_gists_picked regex page matches tr matches' tr' :
  for_gists regex page matches tr = (Ret matches', tr') ->
  exists added, matches' = matches ++ added /\ picked page added.
Proof.
  revert matches tr. induction page as [|gist rest IH]; intros matches tr.
  - intros H; inversion H; subst. exists []. split; [now rewrite app_nil_r|constructor].
  - cbn [for_gists]. unfold bind.
    destruct (_gist_matches gist regex tr) as [[[|]|e] tr1]; [| |discriminate].
    + intros H. apply IH in H. destruct H as (added & -> & Hpick).
      exists (html_url gist :: added). split; [|now constructor].
      rewrite <- app_assoc. reflexivity.
    + intros H. apply IH in H. destruct H as (added & -> & Hpick).
      exists added. split; [reflexivity|now constructor].
Qed.

Lemma for_pages_picked regex gen matches tr matches' tr' :
  for_in (for_gists regex) gen matches tr = (Ret matches', tr') ->
  exists new added,
    tr' = new ++ tr /\ matches' = matches ++ added /\ picked (listed new) added.
Proof.
  revert matches' tr'.
  pattern gen, matches, tr, (for_in (for_gists regex) gen matches tr).
  apply for_in_induction; clear gen matches tr.
  - intros gen acc tr g tr1 Hn matches' tr' Heq. inversion Heq; subst.
    apply next_end_inv in Hn.
    destruct Hn as [_ [->|(u & p & r & data & -> & Hp & -> & H200 & Hj & Ht)]].
    + exists [], []. repeat split; [now rewrite app_nil_r|constructor].
    + exists [(page_request u p, Answer r)], []. repeat split; [now rewrite app_nil_r|].
      unfold listed, page_gists. cbn. rewrite H200, Hj, Ht. constructor.
  - discriminate.
  - discriminate.
  - intros gen acc tr page gen' tr1 acc' tr2 Hn Hb IH matches' tr' Heq.
    apply IH in Heq. destruct Heq as (new2 & added2 & -> & -> & Hpick2).
    apply next_yield_inv in Hn.
    destruct Hn as (u & p & r & data & -> & Hp & -> & -> & H200 & Hj & Ht & Hv).
    destruct (for_gists_streams regex page acc ((page_request u p, Answer r) :: tr))
      as (new1 & Htr1 & Hall1).
    rewrite Hb in Htr1. cbn [snd] in Htr1. subst tr2.
    apply for_gists_picked in Hb. destruct Hb as (added1 & -> & Hpick1).
    exists (new2 ++ new1 ++ [(page_request u p, Answer r)]), (added1 ++ added2).
    repeat split.
    + rewrite <- !app_assoc. reflexivity.
    + rewrite <- app_assoc. reflexivity.
    + rewrite !listed_app, (streams_listed _ Hall1). cbn [app].
      apply picked_app; [|exact Hpick2].
      unfold listed, page_gists. cbn. rewrite H200, Hj, Ht, Hv. cbn.
      rewrite !app_nil_r. exact Hpick1.
Qed.

(** X10: the matches of a response 200 are URLs of gists that the pages
    received have listed, in the order of the pages and, within a page, in
    the order of its gists. *)
Theorem search_matches_order request_json response tr' :
  search request_json [] = (Ret (response, 200), tr') ->
  exists matches,
    dict_get "matches" response = Some (JArr (map JStr matches)) /\
    picked (listed tr') matches.
Proof.
  intros Hs.
  destruct (parse_obj E request_json) as [err|post_data] eqn:Hp.
  - unfold search in Hs. rewrite Hp in Hs. inversion Hs.
  - destruct (re.compile (pattern post_data)) as [regex|] eqn:Hc.
    + rewrite (search_unfold _ _ _ _ Hp Hc) in Hs. cbv zeta in Hs.
      destruct (for_in _ _ _ _) as [[matches|e] tr1] eqn:Hloop; cbn [fst snd respond] in Hs.
      * inversion Hs; subst. exists matches. split; [reflexivity|].
        apply for_pages_picked in Hloop.
        destruct Hloop as (new & added & -> & -> & Hpick).
        rewrite app_nil_r. exact Hpick.
      * destruct e; inversion Hs.
    + rewrite (search_bad_pattern _ _ _ Hp Hc) in Hs. discriminate.
Qed.

End Gistapi.

(** * Runs *)

Local Open Scope list_scope.

(** C1: on an account whose every page holds a gist, the generator of
    [gists_for_user] yields six pages, asking for the pages 1 to 6, and the
    search counts the matches of the six. *)
Theorem gists_for_user_yields_six_pages :
  let run := pages_of (env_of endless) (gists_for_user "alice") [] in
  option_map (@length _) (match fst run with Ret pages => Some pages | Raise _ => None end)
    = Some 6%nat /\
  map (fun x => page_number (fst x)) (rev (snd run)) = [1; 2; 3; 4; 5; 6] /\
  fst (search (env_of endless) alice_todo []) =
  Ret (SearchResponseSchema "success" "alice" "TODO"
         (List.repeat "https://gist.github.com/g" 6), 200).
Proof. vm_compute. repeat split. Qed.

(** C2: a pattern that does not compile makes [search] raise [re.error],
    which no clause takes, instead of answering 400; no request has been
    sent. *)
Theorem search_invalid_pattern_raises :
  re.compile "(" = None /\
  search (env_of endless) (search_json "alice" "(") [] = (Raise re_error, []).
Proof. vm_compute. split; reflexivity. Qed.

(** C7: a page whose body is [{}], which is not a list of gists, ends the
    pagination as an empty page does, and the search answers 200; a page
    whose body is not JSON makes the search raise the [JSONDecodeError] of
    [response.json()].  Neither gives the response 500 with the message
    [Internal error]. *)
Theorem malformed_body_is_not_internal_error :
  gists_of_json (JObj []) = None /\
  fst (search (env_of empty_object_page) alice_todo []) =
    Ret (SearchResponseSchema "success" "alice" "TODO" [], 200) /\
  fst (search (env_of not_json_page) alice_todo []) = Raise JSONDecodeError.
Proof. vm_compute. repeat split. Qed.

(** ** The theorems at work *)

Example compile_todo :
  option_map (fun p => (re.match_ p "TODO: fix", re.match_ p "a TODO", re.search p "a TODO"))
    (re.compile "TODO") = Some (true, false, true).
Proof. vm_compute. reflexivity. Qed.

Example compile_anchor :
  option_map (fun p => (re.match_ p "TODO: fix", re.search p "a TODO"))
    (re.compile "^TODO") = Some (true, false).
Proof. vm_compute. reflexivity. Qed.

Example compile_misc :
  (option_map (fun p => (re.match_ p "xyyz", re.match_ p "z", re.match_ p "y"))
     (re.compile "(x|y)*z$"),
   re.compile "(", re.compile "a)", re.compile "*a", re.compile "a**",
   option_map re.prog (re.compile "")) =
  (Some (true, true, false), None, None, None, None, Some re.Eps).
Proof. vm_compute. reflexivity. Qed.

Example endless_run :
  fst (search (env_of endless) (search_json "alice" "TODO") []) =
  Ret (SearchResponseSchema "success" "alice" "TODO"
         (List.repeat "https://gist.github.com/g" 6), 200).
Proof. vm_compute. reflexivity. Qed.

Example todo_regex_compiled : re.compile "TODO" = Some todo_regex.
Proof. reflexivity. Qed.

Lemma search_user_not_found_witness :
  fst (search (env_of ghost) (search_json "ghost" "TODO") []) =
  Ret ([("status", JStr "error"); ("message", JStr "User ghost not found")], 404).
Proof.
  apply (search_user_not_found (env_of ghost) (search_json "ghost" "TODO")
           {| username := "ghost"; pattern := "TODO" |} _
           (snd (search (env_of ghost) (search_json "ghost" "TODO") []))
           (page_request "ghost" 0)
           {| status_code := 404; json := None; iter_lines := Eof |}).
  - reflexivity.
  - vm_compute. reflexivity.
  - vm_compute. left. reflexivity.
  - reflexivity.
  - reflexivity.
Defined.

Example one_gist_found :
  fst (search (env_of (one_gist (page_of []))) alice_todo []) =
  Ret (SearchResponseSchema "success" "alice" "TODO" ["https://gist.github.com/g"], 200).
Proof. vm_compute. reflexivity. Qed.

Lemma empty_page_ends_pagination_witness :
  let E := env_of (one_gist (page_of [])) in
  let tr' := [(page_request "alice" 1, page_of [])] in
  next E (Suspended "alice" 1) [] = (Ret (None, Finished), tr') /\
  next E Finished tr' = (Ret (None, Finished), tr') /\
  for_in E (for_gists E todo_regex) (Suspended "alice" 1) ["https://gist.github.com/g"] [] =
  (Ret ["https://gist.github.com/g"], tr').
Proof.
  apply (empty_page_ends_pagination (env_of (one_gist (page_of []))) "alice" 1 []
           {| status_code := 200; json := Some (JArr []); iter_lines := Eof |}
           todo_regex ["https://gist.github.com/g"]).
  - lia.
  - reflexivity.
  - reflexivity.
  - reflexivity.
Defined.

(** The match of the first page is lost when the second page fails. *)
Lemma error_response_has_no_matches_witness :
  let E := env_of (one_gist (status_only 503)) in
  exists message code,
    search E alice_todo [] =
    (Ret ([("status", JStr "error"); ("message", JStr message)], code),
     snd (for_in E (for_gists E todo_regex) (gists_for_user "alice") [] [])) /\
    dict_get "matches" [("status", JStr "error"); ("message", JStr message)] = None /\
    (code = 404 \/ code = 500).
Proof.
  apply (error_response_has_no_matches (env_of (one_gist (status_only 503))) alice_todo
           {| username := "alice"; pattern := "TODO" |} todo_regex UnexpectedStatusCode).
  - reflexivity.
  - reflexivity.
  - vm_compute. reflexivity.
  - right. right. reflexivity.
Defined.

Lemma content_failure_propagates_witness :
  fst (search (env_of unreachable_file) alice_todo []) =
    Raise (RequestException "connection refused") /\
  @search_handlers (list string) "alice" (RequestException "connection refused") = None.
Proof.
  apply (content_failure_propagates (env_of unreachable_file) alice_todo
           {| username := "alice"; pattern := "TODO" |} todo_regex _
           (snd (search (env_of unreachable_file) alice_todo []))
           (file_request "https://raw/g") (Failed "connection refused")).
  - reflexivity.
  - reflexivity.
  - vm_compute. reflexivity.
  - vm_compute. left. reflexivity.
  - reflexivity.
  - reflexivity.
Defined.

Lemma gist_matches_at_start_witness :
  exists gist_file r before line rest tr1,
    In gist_file (map snd (files three_files)) /\
    snd (_gist_matches (env_of three_files_remote) three_files todo_regex []) =
      (file_request (raw_url gist_file), Answer r) :: tr1 /\
    iter_lines r = feed before (Line line rest) /\
    Forall (fun l => re.match_at todo_regex l 0 = false) before /\
    re.match_at todo_regex line 0 = true.
Proof.
  apply (gist_matches_at_start (env_of three_files_remote) three_files todo_regex []).
  vm_compute. reflexivity.
Defined.

(** The line ["a TODO"] holds the pattern, but not from its start: the
    first file is not a match. *)
Example contains_is_not_enough :
  re.search todo_regex "a TODO" = true /\
  re.match_ todo_regex "a TODO" = false /\
  fst (scan_files (env_of three_files_remote) todo_regex
         [{| raw_url := "https://raw/a" |}] []) = Ret false.
Proof. vm_compute. repeat split. Qed.

Lemma gist_matches_short_circuit_witness :
  exists new,
    _gist_matches (env_of three_files_remote) three_files todo_regex [] =
      (Ret true, new ++ []) /\
    map fst (rev new) = [file_request "https://raw/a"; file_request "https://raw/b"].
Proof.
  apply (gist_matches_short_circuit (env_of three_files_remote) three_files todo_regex
           [{| raw_url := "https://raw/a" |}] {| raw_url := "https://raw/b" |}
           [{| raw_url := "https://raw/c" |}] []
           [(file_request "https://raw/a", text_of (lines_of ["a TODO"]))]
           {| status_code := 200; json := None;
              iter_lines := feed ["notes"; "TODO: fix"] (Broken "reset") |}
           ["notes"] "TODO: fix" (Broken "reset")).
  - reflexivity.
  - reflexivity.
  - reflexivity.
  - reflexivity.
  - repeat constructor.
  - reflexivity.
Defined.

Lemma empty_pattern_matches_any_line_witness :
  fst (_gist_matches (env_of blank_remote) blank_files empty_regex []) = Ret true.
Proof.
  apply (proj1 (proj2 (proj2
           (empty_pattern_matches_any_line (env_of blank_remote) blank_files [])))).
  - intros f [<-|[<-|[]]] tr; eexists; (split; [reflexivity|discriminate]).
  - exists {| raw_url := "https://raw/b" |}. split; [right; left; reflexivity|].
    intros tr. do 3 eexists. split; reflexivity.
Defined.

(** ** Further runs *)

Definition alice : SearchRequestSchema := {| username := "alice"; pattern := "TODO" |}.

Lemma search_response_kinds_witness :
  let E := env_of ghost in
  let response := [("status", JStr "error"); ("message", JStr "User alice not found")] in
  (404 = 200 /\
   exists post_data matches,
     parse_obj E alice_todo = inr post_data /\
     response = [("status", JStr "success"); ("username", JStr (username post_data));
                 ("pattern", JStr (pattern post_data));
                 ("matches", JArr (map JStr matches))]) \/
  (404 = 400 /\ [(page_request "alice" 0, status_only 404)] = [] /\
   exists err,
     parse_obj E alice_todo = inl err /\
     response = [("status", JStr "error"); ("message", JStr err)]) \/
  (404 = 404 /\
   exists post_data,
     parse_obj E alice_todo = inr post_data /\
     response = [("status", JStr "error");
                 ("message", JStr ("User " ++ username post_data ++ " not found")%string)]) \/
  (404 = 500 /\
   response = [("status", JStr "error"); ("message", JStr "Internal error")]).
Proof.
  apply (search_response_kinds (env_of ghost) alice_todo).
  vm_compute. reflexivity.
Defined.

Lemma search_unexpected_status_witness :
  fst (search (env_of rate_limited) alice_todo []) =
  Ret ([("status", JStr "error"); ("message", JStr "Internal error")], 500).
Proof.
  apply (search_unexpected_status (env_of rate_limited) alice_todo alice _
           (snd (search (env_of rate_limited) alice_todo []))
           (page_request "alice" 0)
           {| status_code := 403; json := None; iter_lines := Eof |}).
  - reflexivity.
  - vm_compute. reflexivity.
  - vm_compute. left. reflexivity.
  - reflexivity.
  - discriminate.
  - discriminate.
Defined.

Lemma search_malformed_page_witness :
  fst (search (env_of message_page) alice_todo []) =
  Ret ([("status", JStr "error"); ("message", JStr "Internal error")], 500).
Proof.
  apply (search_malformed_page (env_of message_page) alice_todo alice _
           (snd (search (env_of message_page) alice_todo []))
           (page_request "alice" 0)
           {| status_code := 200; json := Some (JObj [("message", JStr "Not a list")]);
              iter_lines := Eof |}
           (JObj [("message", JStr "Not a list")])).
  - reflexivity.
  - vm_compute. reflexivity.
  - vm_compute. left. reflexivity.
  - reflexivity.
  - reflexivity.
  - reflexivity.
  - reflexivity.
  - reflexivity.
Defined.

Lemma search_falsy_page_ends_witness :
  let run := search (env_of empty_object_page) alice_todo [] in
  exists matches rest,
    fst run = Ret (SearchResponseSchema "success" "alice" "TODO" matches, 200) /\
    snd run =
    (page_request "alice" 0,
     Answer {| status_code := 200; json := Some (JObj []); iter_lines := Eof |}) :: rest.
Proof.
  apply (search_falsy_page_ends (env_of empty_object_page) alice_todo alice _ _
           (page_request "alice" 0)
           {| status_code := 200; json := Some (JObj []); iter_lines := Eof |}
           (JObj [])).
  - reflexivity.
  - vm_compute. reflexivity.
  - vm_compute. left. reflexivity.
  - reflexivity.
  - reflexivity.
  - reflexivity.
  - reflexivity.
Defined.

Lemma search_undecodable_page_raises_witness :
  fst (search (env_of not_json_page) alice_todo []) = Raise JSONDecodeError.
Proof.
  apply (search_undecodable_page_raises (env_of not_json_page) alice_todo alice _
           (snd (search (env_of not_json_page) alice_todo []))
           (page_request "alice" 0)
           {| status_code := 200; json := None; iter_lines := Eof |}).
  - reflexivity.
  - vm_compute. reflexivity.
  - vm_compute. left. reflexivity.
  - reflexivity.
  - reflexivity.
  - reflexivity.
Defined.

Lemma search_page_request_failure_witness :
  fst (search (env_of page_timeout) alice_todo []) = Raise (RequestException "timed out").
Proof.
  apply (search_page_request_failure (env_of page_timeout) alice_todo alice _
           (snd (search (env_of page_timeout) alice_todo []))
           (page_request "alice" 0) "timed out").
  - reflexivity.
  - vm_compute. reflexivity.
  - vm_compute. left. reflexivity.
  - reflexivity.
Defined.

(** The 503 of the second page comes after the first page and the file of
    its gist, and nothing comes after it. *)
Lemma refused_exchange_is_last_witness :
  exists rest,
    snd (search (env_of (one_gist (status_only 503))) alice_todo []) =
    (page_request "alice" 1, status_only 503) :: rest.
Proof.
  apply (refused_exchange_is_last (env_of (one_gist (status_only 503))) alice_todo alice
           (fst (search (env_of (one_gist (status_only 503))) alice_todo []))).
  - reflexivity.
  - vm_compute. reflexivity.
  - vm_compute. left. reflexivity.
  - split; [reflexivity|discriminate].
Defined.

Lemma page_requests_in_order_witness :
  exists k,
    (k <= 6)%nat /\
    page_requests (snd (search (env_of endless) alice_todo [])) =
    map (fun n => Get (gists_url "alice") [("page", Z.of_nat n)] false) (seq 1 k).
Proof.
  apply (page_requests_in_order (env_of endless) alice_todo alice
           (fst (search (env_of endless) alice_todo []))).
  - reflexivity.
  - vm_compute. reflexivity.
Defined.

Lemma search_matches_order_witness :
  let E := env_of (one_gist (page_of [])) in
  exists matches,
    dict_get "matches"
      (SearchResponseSchema "success" "alice" "TODO" ["https://gist.github.com/g"]) =
    Some (JArr (map JStr matches)) /\
    picked (listed E (snd (search E alice_todo []))) matches.
Proof.
  apply (search_matches_order (env_of (one_gist (page_of []))) alice_todo).
  vm_compute. reflexivity.
Defined.

Lemma pages_of_bound_witness :
  (length (List.repeat
             [{| html_url := "https://gist.github.com/g";
                 files := [("a.txt", {| raw_url := "https://raw/g" |})] |}] 6) <= 6)%nat.
Proof.
  apply (pages_of_bound (env_of endless) "alice" [] _
           (snd (pages_of (env_of endless) (gists_for_user "alice") []))).
  vm_compute. reflexivity.
Defined.

Lemma search_no_gists_witness :
  search (env_of no_gists) alice_todo [] =
  (Ret ([("status", JStr "success"); ("username", JStr "alice");
         ("pattern", JStr "TODO"); ("matches", JArr [])], 200),
   [(Get (gists_url "alice") [("page", 1)] false, page_of [])]).
Proof.
  apply (search_no_gists (env_of no_gists) alice_todo alice todo_regex
           {| status_code := 200; json := Some (JArr []); iter_lines := Eof |} (JArr [])).
  - reflexivity.
  - reflexivity.
  - reflexivity.
  - reflexivity.
  - reflexivity.
  - reflexivity.
Defined.

Lemma gist_no_match_scans_everything_witness :
  let E := env_of blank_remote in
  exists new,
    snd (_gist_matches E blank_files todo_regex []) = new ++ [] /\
    map fst (rev new) = map (fun g => Get (raw_url g) [] true) (map snd (files blank_files)) /\
    Forall (fun x => exists r ls,
                snd x = Answer r /\ iter_lines r = lines_of ls /\
                Forall (fun l => re.match_at todo_regex l 0 = false) ls) new.
Proof.
  apply (gist_no_match_scans_everything (env_of blank_remote) blank_files todo_regex []).
  vm_compute. reflexivity.
Defined.
